(** * viswsl.utils.distributed: bootstrap helpers for torch.distributed

    A shallow embedding of [src/viswsl/utils/distributed.py].

    The module is a thin layer over two things it does not implement: the
    process environment ([os.environ]) and the collective-communication
    runtime ([torch.cuda], [torch.distributed]).  The environment is a finite
    map from names to values; the runtime is a record of oracles whose
    answers the helpers only forward.  Every helper is written in a small
    state-and-exception monad over a [world] that holds the environment, the
    default process group (if one was formed) and the chronological trace of
    the effects performed so far. *)

From Stdlib Require Import ZArith String Ascii List Lia.
From Stdlib Require QArith.
From stdpp Require Import base gmap strings list.

Local Open Scope string_scope.
Local Open Scope Z_scope.

(** ** Python built-ins used by the module *)

Module Py.

(** Exceptions.  [RuntimeExn] stands for an instance of a subclass of
    [Exception] raised by the external runtime; [BaseExn] for an instance of
    a [BaseException] that is not an [Exception] (KeyboardInterrupt,
    SystemExit), which [except Exception] does not catch. *)
Inductive exn : Type :=
| AssertionError (msg : string)
| KeyError (key : string)
| ValueError (literal : string)
| IndexError
| RuntimeExn (id : nat)
| BaseExn (id : nat).

Definition is_Exception (e : exn) : bool :=
  match e with
  | BaseExn _ => false
  | _ => true
  end.

(** The white space [int] skips around an ASCII literal: TAB..CR and SPACE. *)
Definition is_space (c : ascii) : bool :=
  let n := Z.of_nat (nat_of_ascii c) in
  (n =? 32) || ((9 <=? n) && (n <=? 13)).

Definition digit_of (c : ascii) : option Z :=
  let n := Z.of_nat (nat_of_ascii c) in
  if (48 <=? n) && (n <=? 57) then Some (n - 48) else None.

Fixpoint drop_spaces (s : string) : string :=
  match s with
  | String c r => if is_space c then drop_spaces r else s
  | EmptyString => EmptyString
  end.

Fixpoint all_spaces (s : string) : bool :=
  match s with
  | String c r => is_space c && all_spaces r
  | EmptyString => true
  end.

(** The digits of a decimal literal after its first digit: digits, single
    underscores between digits, then trailing white space only.
    [after_us] says that the previous character was an underscore. *)
Fixpoint int_digits (acc : Z) (after_us : bool) (s : string) : option Z :=
  match s with
  | EmptyString => if after_us then None else Some acc
  | String c r =>
      match digit_of c with
      | Some d => int_digits (10 * acc + d) false r
      | None =>
          if after_us then None
          else if Ascii.eqb c "_" then int_digits acc true r
          else if is_space c && all_spaces r then Some acc
          else None
      end
  end.

Definition int_unsigned (s : string) : option Z :=
  match s with
  | String c r =>
      match digit_of c with
      | Some d => int_digits d false r
      | None => None
      end
  | EmptyString => None
  end.

(** The strings on which [int(s)] is the same in every interpreter: ASCII
    only, so that no Unicode digit or white space is involved, and at most
    640 characters, below which the limit on the number of digits of a
    converted string never applies. *)
Fixpoint all_ascii (s : string) : bool :=
  match s with
  | String c r => (Z.of_nat (nat_of_ascii c) <? 128) && all_ascii r
  | EmptyString => true
  end.

Definition is_plain (s : string) : bool :=
  all_ascii s && (Z.of_nat (String.length s) <=? 640).

(** A decimal literal in ASCII: surrounding white space, an optional sign,
    decimal digits with optional single underscores.  [None]: not such a
    literal. *)
Definition int_literal (s : string) : option Z :=
  match drop_spaces s with
  | String "+" r => int_unsigned r
  | String "-" r => Z.opp <$> int_unsigned r
  | t => int_unsigned t
  end.

(** [s.split(sep)] for a one-character separator. *)
Fixpoint split (sep : ascii) (s : string) : list string :=
  match s with
  | EmptyString => [EmptyString]
  | String c r =>
      if Ascii.eqb c sep then EmptyString :: split sep r
      else match split sep r with
           | h :: t => String c h :: t
           | [] => [String c EmptyString]
           end
  end.

(** [l[-1]]; [None] is Python's [IndexError]. *)
Fixpoint item_last {A : Type} (l : list A) : option A :=
  match l with
  | [] => None
  | [x] => Some x
  | _ :: t => item_last t
  end.

End Py.

Export Py.

(** ** The world the helpers run in *)

(** The default process group of [torch.distributed], once formed. *)
Record process_group : Type := ProcessGroup {
  pg_rank : Z;
  pg_world_size : Z;
}.

(** Observable effects, in the order in which they happen. *)
Inductive event : Type :=
| EnvRead (key : string)
| EnvWrite (key value : string)
| InitProcessGroup (backend init_method : string) (world_size rank : option Z)
| Barrier
| AllReduce
| LogError (msg : string)
| SetDevice (device : Z).

Record world : Type := World {
  w_env : gmap string string;
  w_dist : option process_group;
  w_trace : list event;
}.

Definition with_env (env : gmap string string) (w : world) : world :=
  World env (w_dist w) (w_trace w).

Definition with_dist (d : option process_group) (w : world) : world :=
  World (w_env w) d (w_trace w).

Definition record (ev : event) (w : world) : world :=
  World (w_env w) (w_dist w) (w_trace w ++ [ev]).

(** The external runtime.  [dist_init_process_group] receives the keyword
    arguments of the call, the environment it may consult for [env://]
    rendezvous and the current default group, and either raises or forms a
    group; [dist_barrier] and [cuda_set_device] either return or raise.  The
    runtime only reads the environment: the writes recorded in a trace are
    those of the helpers themselves.  A call that blocks for ever has no
    counterpart here: every oracle answers.

    [int_beyond] is the interpreter's [int(s)] on the strings that are not
    plain: what it makes of them depends on its Unicode tables (digits and
    white space outside ASCII) and on its limit for the digits of a converted
    string.  [None] is [ValueError]. *)
Record runtime : Type := Runtime {
  cuda_is_available : bool;
  dist_init_process_group :
    string -> string -> option Z -> option Z ->
    gmap string string -> option process_group -> exn + process_group;
  dist_barrier : process_group -> option exn;
  cuda_set_device : Z -> option exn;
  int_beyond : string -> option Z;
}.

(** [int(s)] for a [str] in base ten: the decimal literal on a plain string,
    the interpreter's answer on any other.  [None] is Python's
    [ValueError]. *)
Definition int (rt : runtime) (s : string) : option Z :=
  if is_plain s then int_literal s else int_beyond rt s.

(** ** A state-and-exception monad *)

Inductive result (A : Type) : Type :=
| Ok (a : A)
| Raise (e : exn).
Arguments Ok {A} a.
Arguments Raise {A} e.

Definition M (A : Type) : Type := world -> result A * world.

Definition ret {A : Type} (a : A) : M A := fun w => (Ok a, w).

Definition raise {A : Type} (e : exn) : M A := fun w => (Raise e, w).

Definition bind {A B : Type} (m : M A) (k : A -> M B) : M B :=
  fun w =>
    match m w with
    | (Ok a, w') => k a w'
    | (Raise e, w') => (Raise e, w')
    end.

Notation "'let*' x ':=' m 'in' k" := (bind m (fun x => k))
  (at level 10, x name, m at level 100, k at level 200).

(** [try: body  except Exception as e: handler e]. *)
Definition try_except {A : Type} (body : M A) (handler : exn -> M A) : M A :=
  fun w =>
    match body w with
    | (Ok a, w') => (Ok a, w')
    | (Raise e, w') => if is_Exception e then handler e w' else (Raise e, w')
    end.

Definition emit (ev : event) : M unit := fun w => (Ok tt, record ev w).

Definition of_option {A : Type} (o : option A) (e : exn) : M A :=
  match o with
  | Some a => ret a
  | None => raise e
  end.

(** [assert cond, msg] *)
Definition py_assert (cond : bool) (msg : string) : M unit :=
  if cond then ret tt else raise (AssertionError msg).

(** [int(s)] *)
Definition py_int (rt : runtime) (s : string) : M Z :=
  of_option (int rt s) (ValueError s).

(** [os.environ.get(key, default)] *)
Definition environ_get (key dflt : string) : M string :=
  fun w => (Ok (default dflt (w_env w !! key)), record (EnvRead key) w).

(** [os.environ[key]] *)
Definition environ_getitem (key : string) : M string :=
  fun w =>
    match w_env w !! key with
    | Some v => (Ok v, record (EnvRead key) w)
    | None => (Raise (KeyError key), record (EnvRead key) w)
    end.

(** [os.environ[key] = value] *)
Definition environ_setitem (key value : string) : M unit :=
  fun w => (Ok tt, record (EnvWrite key value) (with_env (<[key := value]> (w_env w)) w)).

(** [logging.getLogger(__name__).error(msg)] *)
Definition logger_error (msg : string) : M unit := emit (LogError msg).

(** ** The helpers of [distributed.py] *)

Section Helpers.

Variable rt : runtime.

(** [dist.init_process_group(backend, init_method, world_size, rank)] *)
Definition init_process_group
    (backend init_method : string) (world_size rank : option Z) : M unit :=
  fun w =>
    let w1 := record (InitProcessGroup backend init_method world_size rank) w in
    match dist_init_process_group rt backend init_method world_size rank
            (w_env w) (w_dist w) with
    | inl e => (Raise e, w1)
    | inr g => (Ok tt, with_dist (Some g) w1)
    end.

(** [torch.cuda.set_device(device)] *)
Definition set_device (device : Z) : M unit :=
  fun w =>
    let w1 := record (SetDevice device) w in
    match cuda_set_device rt device with
    | Some e => (Raise e, w1)
    | None => (Ok tt, w1)
    end.

(** [synchronize()]: a barrier when a group exists, nothing otherwise. *)
Definition synchronize : M unit :=
  fun w =>
    match w_dist w with
    | Some g =>
        let w1 := record Barrier w in
        match dist_barrier rt g with
        | Some e => (Raise e, w1)
        | None => (Ok tt, w1)
        end
    | None => (Ok tt, w)
    end.

(** [dist.get_world_size() if dist.is_initialized() else 1] *)
Definition get_world_size (w : world) : Z :=
  match w_dist w with
  | Some g => pg_world_size g
  | None => 1
  end.

(** [dist.get_rank() if dist.is_initialized() else 0] *)
Definition get_rank (w : world) : Z :=
  match w_dist w with
  | Some g => pg_rank g
  | None => 0
  end.

(** [get_rank() == 0] *)
Definition is_master_process (w : world) : bool := get_rank w =? 0.

Definition init_distributed_env (backend : string) : M Z :=
  let* _ := py_assert (cuda_is_available rt) "Cannot use GPU, CUDA not found!" in
  (* the default of the outer [get] is evaluated before the call *)
  let* nodelist := environ_get "SLURM_NODELIST" "localhost" in
  let* node := of_option (item_last (split "," nodelist)) IndexError in
  let* addr := environ_get "MASTER_ADDR" node in
  let* _ := environ_setitem "MASTER_ADDR" addr in
  let* procid := environ_get "SLURM_PROCID" "0" in
  let* rank := environ_get "RANK" procid in
  let* _ := environ_setitem "RANK" rank in
  let* ntasks := environ_get "SLURM_NTASKS" "1" in
  let* size := environ_get "WORLD_SIZE" ntasks in
  let* _ := environ_setitem "WORLD_SIZE" size in
  let* _ :=
    try_except
      (let* s := environ_getitem "WORLD_SIZE" in
       let* n := py_int rt s in
       if 1 <? n then
         let* _ := init_process_group backend "env://" None None in
         synchronize
       else ret tt)
      (fun e =>
         let* a := environ_getitem "MASTER_ADDR" in
         let* p := environ_getitem "MASTER_PORT" in
         let* _ := logger_error ("Dist URL: " ++ a ++ ":" ++ p)%string in
         raise e) in
  let* localid := environ_get "SLURM_LOCALID" "0" in
  let* lr := environ_get "LOCAL_RANK" localid in
  let* local_rank := py_int rt lr in
  let* _ := set_device local_rank in
  ret local_rank.

(** Lines 82 and 83. *)
Definition tcp_world_size (num_gpus_per_machine num_machines : Z) : Z :=
  num_machines * num_gpus_per_machine.

Definition tcp_world_rank (local_rank machine_rank num_gpus_per_machine : Z) : Z :=
  machine_rank * num_gpus_per_machine + local_rank.

Definition init_distributed_tcp
    (local_rank machine_rank num_gpus_per_machine num_machines : Z)
    (dist_url backend : string) : M Z :=
  let* _ := py_assert (cuda_is_available rt) "Cannot use GPU, CUDA not found!" in
  let world_size := tcp_world_size num_gpus_per_machine num_machines in
  let world_rank := tcp_world_rank local_rank machine_rank num_gpus_per_machine in
  let* _ :=
    try_except
      (let* _ :=
         if 1 <? world_size then
           init_process_group backend dist_url (Some world_size) (Some world_rank)
         else ret tt in
       synchronize)
      (fun e =>
         let* _ := logger_error ("Dist URL: " ++ dist_url)%string in
         raise e) in
  let* _ := set_device local_rank in
  ret local_rank.

End Helpers.

(** Default values of the keyword arguments. *)
Definition default_backend : string := "nccl".
Definition default_dist_url : string := "tcp://127.0.0.1:23456".

Section Reduce.

(** Tensors and the two tensor operations the module calls are the
    runtime's: [dist.all_reduce(t, op=SUM)] as seen from one process, and
    the in-place division [t /= n]. *)
Variable Tensor : Type.
Variable dist_all_reduce_sum : process_group -> Tensor -> exn + Tensor.
Variable tensor_idiv : Tensor -> Z -> exn + Tensor.

Definition all_reduce (t : Tensor) : M Tensor :=
  fun w =>
    match w_dist w with
    | Some g =>
        match dist_all_reduce_sum g t with
        | inl e => (Raise e, record AllReduce w)
        | inr t' => (Ok t', record AllReduce w)
        end
    | None => (Raise (RuntimeExn 0), w)
    end.

Definition idiv (t : Tensor) (n : Z) : M Tensor :=
  match tensor_idiv t n with
  | inl e => raise e
  | inr t' => ret t'
  end.

Definition average_across_processes (t : Tensor) : M Tensor :=
  fun w =>
    match w_dist w with
    | Some _ =>
        (let* t1 := all_reduce t in
         fun w1 => idiv t1 (get_world_size w1) w1) w
    | None => (Ok t, w)
    end.

End Reduce.

(** ** A reference runtime

    A runtime in which a device is present, device binding and barriers
    succeed, and [init_process_group] follows the contract of
    [torch.distributed]: with explicit [world_size] and [rank] it forms that
    group; with [env://] it takes both from [WORLD_SIZE] and [RANK] and needs
    [MASTER_ADDR] and [MASTER_PORT].  Its interpreter accepts plain literals
    only. *)

Definition reference_int (s : string) : option Z :=
  if is_plain s then int_literal s else None.

Definition env_rendezvous (env : gmap string string) : exn + process_group :=
  match env !! "RANK", env !! "WORLD_SIZE", env !! "MASTER_ADDR", env !! "MASTER_PORT" with
  | Some r, Some s, Some _, Some _ =>
      match reference_int r, reference_int s with
      | Some r', Some s' => inr (ProcessGroup r' s')
      | _, _ => inl (RuntimeExn 2)
      end
  | _, _, _, _ => inl (RuntimeExn 1)
  end.

Definition reference_init
    (backend init_method : string) (world_size rank : option Z)
    (env : gmap string string) (cur : option process_group) : exn + process_group :=
  match cur with
  | Some _ => inl (RuntimeExn 3)
  | None =>
      match world_size, rank with
      | Some s, Some r => inr (ProcessGroup r s)
      | _, _ => env_rendezvous env
      end
  end.

Definition reference_runtime : runtime :=
  Runtime true reference_init (fun _ => None) (fun _ => None) (fun _ => None).

(** The same machine without an accelerator device. *)
Definition cpu_only_runtime : runtime :=
  Runtime false reference_init (fun _ => None) (fun _ => None) (fun _ => None).

(** A runtime whose rendezvous always fails with the given exception. *)
Definition failing_runtime (e : exn) : runtime :=
  Runtime true (fun _ _ _ _ _ _ => inl e) (fun _ => None) (fun _ => None)
    (fun _ => None).

(** An initial world: the given environment, no group, nothing done yet. *)
Definition start (env : gmap string string) : world := World env None [].

(** ** The resolution rules in the words of the specification *)

Module Spec.

(** Explicit override, then scheduler variable, then hard-coded default. *)
Definition fallback_chain
    (env : gmap string string) (override scheduler dflt : string) : string :=
  match env !! override with
  | Some v => v
  | None =>
      match env !! scheduler with
      | Some v => v
      | None => dflt
      end
  end.

Fixpoint has_comma (s : string) : bool :=
  match s with
  | EmptyString => false
  | String c r => Ascii.eqb c "," || has_comma r
  end.

(** The last comma-separated entry: what follows the last comma, or the
    whole string when it has none. *)
Fixpoint last_comma_entry (s : string) : string :=
  match s with
  | EmptyString => EmptyString
  | String c r => if has_comma s then last_comma_entry r else s
  end.

Definition master_addr (env : gmap string string) : string :=
  match env !! "MASTER_ADDR" with
  | Some v => v
  | None =>
      match env !! "SLURM_NODELIST" with
      | Some l => last_comma_entry l
      | None => "localhost"
      end
  end.

Definition rank (env : gmap string string) : string :=
  fallback_chain env "RANK" "SLURM_PROCID" "0".

Definition world_size (env : gmap string string) : string :=
  fallback_chain env "WORLD_SIZE" "SLURM_NTASKS" "1".

Definition local_rank (env : gmap string string) : string :=
  fallback_chain env "LOCAL_RANK" "SLURM_LOCALID" "0".

(** [0 <= local_rank <= rank < world_size] *)
Definition invariant (local_rank rank world_size : Z) : Prop :=
  0 <= local_rank /\ local_rank <= rank /\ rank < world_size.

(** The failure the specification calls DeviceUnavailable is the failed
    assertion at the entry of both initialization operations. *)
Definition DeviceUnavailable : exn :=
  AssertionError "Cannot use GPU, CUDA not found!".

End Spec.

(** ** The phases of [init_distributed_env]

    Names for the three parts of the body after the entry assertion, used to
    state what each part does. *)

(** The environment after lines 42-51. *)
Definition normalized_env (env : gmap string string) : gmap string string :=
  <["WORLD_SIZE" := Spec.world_size env]>
    (<["RANK" := Spec.rank env]>
       (<["MASTER_ADDR" := Spec.master_addr env]> env)).

(** The effects of lines 42-51, in order. *)
Definition normalize_events (env : gmap string string) : list event :=
  [ EnvRead "SLURM_NODELIST"; EnvRead "MASTER_ADDR";
    EnvWrite "MASTER_ADDR" (Spec.master_addr env);
    EnvRead "SLURM_PROCID"; EnvRead "RANK";
    EnvWrite "RANK" (Spec.rank env);
    EnvRead "SLURM_NTASKS"; EnvRead "WORLD_SIZE";
    EnvWrite "WORLD_SIZE" (Spec.world_size env) ].

Section Phases.

Variable rt : runtime.

(** Lines 58-62: the handler of the [try] statement. *)
Definition report_env {A : Type} (e : exn) : M A :=
  let* a := environ_getitem "MASTER_ADDR" in
  let* p := environ_getitem "MASTER_PORT" in
  let* _ := logger_error ("Dist URL: " ++ a ++ ":" ++ p)%string in
  raise e.

(** Lines 53-56: the body of the [try] statement. *)
Definition attempt_env (backend : string) : M unit :=
  let* s := environ_getitem "WORLD_SIZE" in
  let* n := py_int rt s in
  if 1 <? n then
    let* _ := init_process_group rt backend "env://" None None in
    synchronize rt
  else ret tt.

(** Lines 52-62: the [try] statement. *)
Definition join_group (backend : string) : M unit :=
  try_except (attempt_env backend) report_env.

(** Lines 64-70: resolve the local rank and bind the device. *)
Definition bind_device : M Z :=
  let* localid := environ_get "SLURM_LOCALID" "0" in
  let* lr := environ_get "LOCAL_RANK" localid in
  let* local_rank := py_int rt lr in
  let* _ := set_device rt local_rank in
  ret local_rank.

End Phases.

(** ** The phases of [init_distributed_tcp] *)

Section PhasesTcp.

Variable rt : runtime.

(** Lines 86-94: the body of the [try] statement. *)
Definition attempt_tcp (world_size world_rank : Z) (dist_url backend : string) : M unit :=
  let* _ :=
    if 1 <? world_size then
      init_process_group rt backend dist_url (Some world_size) (Some world_rank)
    else ret tt in
  synchronize rt.

(** Lines 95-98: its handler. *)
Definition report_tcp {A : Type} (dist_url : string) (e : exn) : M A :=
  let* _ := logger_error ("Dist URL: " ++ dist_url)%string in
  raise e.

End PhasesTcp.

(** ** The contract of [env://] rendezvous

    What [torch.distributed] promises for [init_method="env://"]: the group
    it forms has the rank and the size spelled by [RANK] and [WORLD_SIZE]. *)

Definition env_rendezvous_contract (rt : runtime) : Prop :=
  forall backend env cur g,
    dist_init_process_group rt backend "env://" None None env cur = inr g ->
    (exists r, env !! "RANK" = Some r /\ int rt r = Some (pg_rank g)) /\
    (exists s, env !! "WORLD_SIZE" = Some s /\ int rt s = Some (pg_world_size g)).

(** ** Effect footprints

    [footprint P m]: running [m] leaves the environment as it is and performs
    only effects that satisfy [P]. *)

Definition footprint {A : Type} (P : event -> Prop) (m : M A) : Prop :=
  forall w,
    w_env (snd (m w)) = w_env w /\
    exists evs, w_trace (snd (m w)) = (w_trace w ++ evs)%list /\ Forall P evs.

Definition is_env_write (ev : event) : bool :=
  match ev with
  | EnvWrite _ _ => true
  | _ => false
  end.

Definition not_env_write (ev : event) : Prop := is_env_write ev = false.

(** ** Sample environments *)

(** A SLURM job step: only scheduler variables and [MASTER_PORT] are set. *)
Definition slurm_env : gmap string string :=
  <["SLURM_NODELIST" := "node1,node2"]>
    (<["SLURM_PROCID" := "3"]>
       (<["SLURM_NTASKS" := "4"]>
          (<["SLURM_LOCALID" := "1"]>
             (<["MASTER_PORT" := "29500"]> ∅)))).

(** A single process that picks its device with [LOCAL_RANK] alone. *)
Definition second_device_env : gmap string string :=
  <["LOCAL_RANK" := "1"]> ∅.

(** Process 2 of 4, started by a launcher that sets the five variables. *)
Definition launcher_env : gmap string string :=
  <["MASTER_ADDR" := "10.0.0.1"]>
    (<["MASTER_PORT" := "29500"]>
       (<["WORLD_SIZE" := "4"]>
          (<["RANK" := "2"]>
             (<["LOCAL_RANK" := "0"]> ∅)))).

(** Two processes requested, [MASTER_PORT] forgotten. *)
Definition portless_env : gmap string string :=
  <["WORLD_SIZE" := "2"]> ∅.

(** A world size that is not an integer literal, and no [MASTER_PORT]. *)
Definition malformed_env : gmap string string :=
  <["WORLD_SIZE" := "two"]> ∅.

(** ** The effects of one call *)

(** What running [m] from [w] appends to the trace. *)
Definition effects_of {A : Type} (m : M A) (w : world) : list event :=
  drop (length (w_trace w)) (w_trace (snd (m w))).

Definition is_env_event (ev : event) : bool :=
  match ev with
  | EnvRead _ | EnvWrite _ _ => true
  | _ => false
  end.

Definition is_log_error (ev : event) : bool :=
  match ev with
  | LogError _ => true
  | _ => false
  end.

(** Effects that involve neither the collective runtime nor a write to the
    environment: reads of the environment, log lines, device binding. *)
Definition is_local_event (ev : event) : bool :=
  match ev with
  | EnvRead _ | LogError _ | SetDevice _ => true
  | _ => false
  end.

(** What the [try] statement of [init_distributed_env] asks of the
    collective runtime, given the resolved world size and the answer of
    [init_process_group]. *)
Definition rendezvous_events
    (backend : string) (size : option Z) (formed : bool) : list event :=
  match size with
  | Some n =>
      if 1 <? n then
        InitProcessGroup backend "env://" None None ::
        (if formed then [Barrier] else [])
      else []
  | None => []
  end.

(** The same for [init_distributed_tcp], whose barrier stands outside the
    test of the world size: [joined] says whether a group existed before the
    call. *)
Definition tcp_rendezvous_events
    (backend dist_url : string) (world_size world_rank : Z)
    (formed joined : bool) : list event :=
  if 1 <? world_size then
    InitProcessGroup backend dist_url (Some world_size) (Some world_rank) ::
    (if formed then [Barrier] else [])
  else if joined then [Barrier] else [].

(** The exception, if any, with which the body of the [try] statement of
    [init_distributed_env] ends: a malformed world size, a failed rendezvous
    or a failed barrier. *)
Definition env_try_failure (rt : runtime) (backend : string) (w : world) : option exn :=
  match int rt (Spec.world_size (w_env w)) with
  | None => Some (ValueError (Spec.world_size (w_env w)))
  | Some n =>
      if 1 <? n then
        match dist_init_process_group rt backend "env://" None None
                (normalized_env (w_env w)) (w_dist w) with
        | inl e => Some e
        | inr g => dist_barrier rt g
        end
      else None
  end.

(** The same for [init_distributed_tcp]: a failed rendezvous, or a failed
    barrier on the group just formed or, with a world size of at most one, on
    the group that already existed. *)
Definition tcp_try_failure
    (rt : runtime) (world_size world_rank : Z) (dist_url backend : string)
    (w : world) : option exn :=
  if 1 <? world_size then
    match dist_init_process_group rt backend dist_url (Some world_size)
            (Some world_rank) (w_env w) (w_dist w) with
    | inl e => Some e
    | inr g => dist_barrier rt g
    end
  else
    match w_dist w with
    | Some g => dist_barrier rt g
    | None => None
    end.

(** A runtime that forms the group and then fails at the barrier. *)
Definition barrier_failing_runtime (e : exn) : runtime :=
  Runtime true reference_init (fun _ => Some e) (fun _ => None) (fun _ => None).

(** ** The contract of rendezvous with explicit parameters

    What [torch.distributed] promises when [world_size] and [rank] are
    passed: the group it forms has that size and that rank. *)

Definition explicit_rendezvous_contract (rt : runtime) : Prop :=
  forall backend init_method size rank env cur g,
    dist_init_process_group rt backend init_method (Some size) (Some rank) env cur
      = inr g ->
    pg_rank g = rank /\ pg_world_size g = size.

(** ** Further sample worlds and runtimes *)

(** A SLURM job step whose node list has several entries and no
    [MASTER_ADDR]. *)
Definition nodelist_env : gmap string string :=
  <["SLURM_NODELIST" := "gpu-a,gpu-b,gpu-c"]> (<["MASTER_PORT" := "29500"]> ∅).

(** A launcher environment whose [LOCAL_RANK] is not an integer. *)
Definition bad_local_rank_env : gmap string string :=
  <["LOCAL_RANK" := "gpu0"]> launcher_env.

(** A single process that also carries a stray [RANK]. *)
Definition stray_rank_env : gmap string string :=
  <["RANK" := "5"]> (<["WORLD_SIZE" := "1"]> ∅).

(** A process in which a group of two already exists. *)
Definition joined_world (env : gmap string string) : world :=
  World env (Some (ProcessGroup 1 2)) [].

(** A runtime interrupted during rendezvous. *)
Definition interrupted_runtime : runtime := failing_runtime (BaseExn 0).

(** ** A group of processes and its collective sum

    [participants] lists, by rank, the world of each process of one group and
    the tensor it passes to [average_across_processes]. *)

Definition group_of_processes {Tensor : Type}
    (participants : list (world * Tensor)) : Prop :=
  forall i w v,
    participants !! i = Some (w, v) ->
    exists g,
      w_dist w = Some g /\
      pg_rank g = Z.of_nat i /\
      pg_world_size g = Z.of_nat (length participants).

(** What [torch.distributed] promises for [all_reduce] with [op=SUM]: every
    process of the group receives the element-wise sum of the tensors the
    processes passed; [tensor_sum] is that sum. *)
Definition all_reduce_sum_contract {Tensor : Type}
    (tensor_sum : list Tensor -> Tensor)
    (dist_all_reduce_sum : process_group -> Tensor -> exn + Tensor)
    (participants : list (world * Tensor)) : Prop :=
  forall i w v g,
    participants !! i = Some (w, v) ->
    w_dist w = Some g ->
    dist_all_reduce_sum g v = inr (tensor_sum (participants.*2)).

(** Tensors of exact rationals, for examples: element-wise sum and division
    by an integer. *)
Fixpoint qtensor_add (a b : list QArith_base.Q) : list QArith_base.Q :=
  match a, b with
  | x :: a', y :: b' => Qreduction.Qred (QArith_base.Qplus x y) :: qtensor_add a' b'
  | _, _ => []
  end.

Definition qtensor_sum (ts : list (list QArith_base.Q)) : list QArith_base.Q :=
  match ts with
  | [] => []
  | t :: r => fold_left qtensor_add r t
  end.

Definition qtensor_div (t : list QArith_base.Q) (n : Z) : exn + list QArith_base.Q :=
  inr (map (fun x => Qreduction.Qred (QArith_base.Qdiv x (QArith_base.inject_Z n))) t).

(** Three processes of one group, holding [1, 10], [2, 20] and [6, 30]. *)
Definition three_processes : list (world * list QArith_base.Q) :=
  [ (World ∅ (Some (ProcessGroup 0 3)) [],
     [QArith_base.inject_Z 1; QArith_base.inject_Z 10]);
    (World ∅ (Some (ProcessGroup 1 3)) [],
     [QArith_base.inject_Z 2; QArith_base.inject_Z 20]);
    (World ∅ (Some (ProcessGroup 2 3)) [],
     [QArith_base.inject_Z 6; QArith_base.inject_Z 30]) ].

(** The collective of that round, as each of them sees it. *)
Definition three_processes_all_reduce
    (g : process_group) (t : list QArith_base.Q) : exn + list QArith_base.Q :=
  inr (qtensor_sum (three_processes.*2)).

(** An interpreter that reads the full-width digit one (U+FF11, the bytes
    EF BC 91 in UTF-8) as 1, as its Unicode tables say. *)
Definition fullwidth_one : string :=
  String (ascii_of_nat 239) (String (ascii_of_nat 188)
    (String (ascii_of_nat 145) EmptyString)).

Definition fullwidth_runtime : runtime :=
  Runtime true reference_init (fun _ => None) (fun _ => None)
    (fun s => if String.eqb s fullwidth_one then Some 1 else None).

Definition fullwidth_env : gmap string string :=
  <["LOCAL_RANK" := fullwidth_one]> ∅.

(** * Properties *)

(** ** Python built-ins *)

Lemma split_nonempty sep s : split sep s <> [].
Proof.
  destruct s as [|c r]; simpl; [discriminate|].
  destruct (Ascii.eqb c sep); [discriminate|].
  destruct (split sep r); discriminate.
Qed.

Lemma has_comma_split s :
  Spec.has_comma s = false -> split "," s = [s].
Proof.
  induction s as [|c r IH]; simpl; [reflexivity|].
  intros H. apply orb_false_iff in H as [Hc Hr].
  rewrite Hc, (IH Hr). reflexivity.
Qed.

Lemma item_last_cons {A : Type} (x : A) (l : list A) :
  l <> [] -> item_last (x :: l) = item_last l.
Proof. destruct l; [congruence | reflexivity]. Qed.

(** [s.split(",")[-1]] never raises and is the last comma-separated entry. *)
Lemma item_last_split s :
  item_last (split "," s) = Some (Spec.last_comma_entry s).
Proof.
  induction s as [|c r IH]; [reflexivity|].
  cbn [split Spec.last_comma_entry Spec.has_comma].
  destruct (Ascii.eqb c ",") eqn:Hc; cbn [orb].
  - rewrite item_last_cons by apply split_nonempty. exact IH.
  - destruct (Spec.has_comma r) eqn:Hr.
    + destruct (split "," r) as [|h t] eqn:Hs; [now apply split_nonempty in Hs|].
      destruct t as [|h' t'].
      * (* a single piece contradicts the comma in [r] *)
        exfalso. clear IH.
        revert h Hs. induction r as [|d r' IHr]; [discriminate|].
        cbn [split Spec.has_comma] in *. intros h.
        destruct (Ascii.eqb d ",") eqn:Hd.
        -- intros Hs. injection Hs as _ Hs. now apply split_nonempty in Hs.
        -- cbn [orb] in Hr.
           destruct (split "," r') as [|h1 t1] eqn:Hs1; [now apply split_nonempty in Hs1|].
           intros Hs. injection Hs as _ Ht. subst t1.
           eapply IHr; [exact Hr | reflexivity].
      * rewrite <- IH. reflexivity.
    + rewrite (has_comma_split r Hr). reflexivity.
Qed.

(** ** Running the monad *)

Lemma bind_ok {A B : Type} (m : M A) (k : A -> M B) w a w' :
  m w = (Ok a, w') -> bind m k w = k a w'.
Proof. unfold bind. intros ->. reflexivity. Qed.

Lemma bind_raise {A B : Type} (m : M A) (k : A -> M B) w e w' :
  m w = (Raise e, w') -> bind m k w = (Raise e, w').
Proof. unfold bind. intros ->. reflexivity. Qed.

Lemma try_except_ok {A : Type} (body : M A) handler w a w' :
  body w = (Ok a, w') -> try_except body handler w = (Ok a, w').
Proof. unfold try_except. intros ->. reflexivity. Qed.

Lemma try_except_caught {A : Type} (body : M A) handler w e w' :
  body w = (Raise e, w') -> is_Exception e = true ->
  try_except body handler w = handler e w'.
Proof. unfold try_except. intros -> ->. reflexivity. Qed.

Lemma try_except_passed {A : Type} (body : M A) handler w e w' :
  body w = (Raise e, w') -> is_Exception e = false ->
  try_except body handler w = (Raise e, w').
Proof. unfold try_except. intros -> ->. reflexivity. Qed.

(** ** Normalisation of the environment (lines 42-51) *)

Lemma normalized_env_other env k :
  k <> "MASTER_ADDR" -> k <> "RANK" -> k <> "WORLD_SIZE" ->
  normalized_env env !! k = env !! k.
Proof.
  intros H1 H2 H3. unfold normalized_env.
  rewrite !lookup_insert_ne by congruence. reflexivity.
Qed.

Lemma normalized_env_master_addr env :
  normalized_env env !! "MASTER_ADDR" = Some (Spec.master_addr env).
Proof.
  unfold normalized_env.
  rewrite !lookup_insert_ne by discriminate. apply lookup_insert_eq.
Qed.

Lemma normalized_env_rank env :
  normalized_env env !! "RANK" = Some (Spec.rank env).
Proof.
  unfold normalized_env.
  rewrite lookup_insert_ne by discriminate. apply lookup_insert_eq.
Qed.

Lemma normalized_env_world_size env :
  normalized_env env !! "WORLD_SIZE" = Some (Spec.world_size env).
Proof. unfold normalized_env. apply lookup_insert_eq. Qed.

Lemma bind_environ_get {B : Type} k d (f : string -> M B) w :
  bind (environ_get k d) f w =
  f (default d (w_env w !! k)) (record (EnvRead k) w).
Proof. reflexivity. Qed.

Lemma bind_environ_setitem {B : Type} k v (f : unit -> M B) w :
  bind (environ_setitem k v) f w =
  f tt (record (EnvWrite k v) (with_env (<[k := v]> (w_env w)) w)).
Proof. reflexivity. Qed.

Lemma default_fallback_chain env override scheduler dflt :
  default (default dflt (env !! scheduler)) (env !! override) =
  Spec.fallback_chain env override scheduler dflt.
Proof.
  unfold Spec.fallback_chain.
  destruct (env !! override), (env !! scheduler); reflexivity.
Qed.

Lemma default_master_addr env :
  default (Spec.last_comma_entry (default "localhost" (env !! "SLURM_NODELIST")))
          (env !! "MASTER_ADDR") =
  Spec.master_addr env.
Proof.
  unfold Spec.master_addr.
  destruct (env !! "MASTER_ADDR"), (env !! "SLURM_NODELIST"); reflexivity.
Qed.

(** With a device present, the body is the three writes followed by the
    [try] statement and the device binding. *)
Lemma init_distributed_env_phases rt backend w :
  cuda_is_available rt = true ->
  init_distributed_env rt backend w =
  (let* _ := join_group rt backend in bind_device rt)
    (World (normalized_env (w_env w)) (w_dist w)
           (w_trace w ++ normalize_events (w_env w))).
Proof.
  intros Hcuda. destruct w as [env d tr].
  unfold init_distributed_env, py_assert. rewrite Hcuda.
  unfold bind at 1, ret at 1.
  rewrite bind_environ_get. cbn [w_env record w_dist w_trace].
  unfold bind at 1. rewrite item_last_split. unfold of_option, ret at 1.
  repeat (first [rewrite bind_environ_get | rewrite bind_environ_setitem];
          cbn [w_env record w_dist w_trace with_env]).
  rewrite !lookup_insert_ne by discriminate.
  rewrite default_master_addr, !default_fallback_chain.
  fold (Spec.rank env) (Spec.world_size env).
  unfold normalize_events, record, with_env; cbn [w_env w_dist w_trace].
  rewrite <- !app_assoc. reflexivity.
Qed.

(** Without a device, both operations stop at the assertion. *)
Lemma init_distributed_env_no_device rt backend w :
  cuda_is_available rt = false ->
  init_distributed_env rt backend w = (Raise Spec.DeviceUnavailable, w).
Proof.
  intros Hcuda. unfold init_distributed_env, py_assert. rewrite Hcuda.
  reflexivity.
Qed.

Lemma init_distributed_tcp_no_device
    rt local_rank machine_rank num_gpus_per_machine num_machines dist_url backend w :
  cuda_is_available rt = false ->
  init_distributed_tcp rt local_rank machine_rank num_gpus_per_machine
    num_machines dist_url backend w = (Raise Spec.DeviceUnavailable, w).
Proof.
  intros Hcuda. unfold init_distributed_tcp, py_assert. rewrite Hcuda.
  reflexivity.
Qed.

(** ** The [try] statement of [init_distributed_env] (lines 52-62) *)

Section JoinGroup.

Variable rt : runtime.
Variable backend : string.

(** The handler with [MASTER_PORT] set: one log line, then the same
    exception. *)
Lemma report_env_with_port {A : Type} e w a p :
  w_env w !! "MASTER_ADDR" = Some a ->
  w_env w !! "MASTER_PORT" = Some p ->
  @report_env A e w =
  (Raise e,
   record (LogError ("Dist URL: " ++ a ++ ":" ++ p)%string)
     (record (EnvRead "MASTER_PORT") (record (EnvRead "MASTER_ADDR") w))).
Proof.
  intros Ha Hp. unfold report_env, bind, environ_getitem.
  rewrite Ha. cbn [w_env record]. rewrite Hp. reflexivity.
Qed.

(** The handler with [MASTER_PORT] unset: the lookup itself raises, before
    anything is logged. *)
Lemma report_env_without_port {A : Type} e w a :
  w_env w !! "MASTER_ADDR" = Some a ->
  w_env w !! "MASTER_PORT" = None ->
  @report_env A e w =
  (Raise (KeyError "MASTER_PORT"),
   record (EnvRead "MASTER_PORT") (record (EnvRead "MASTER_ADDR") w)).
Proof.
  intros Ha Hp. unfold report_env, bind, environ_getitem.
  rewrite Ha. cbn [w_env record]. rewrite Hp. reflexivity.
Qed.

(** A world size of at most one: nothing is attempted. *)
Lemma attempt_env_single w s n :
  w_env w !! "WORLD_SIZE" = Some s -> int rt s = Some n -> n <= 1 ->
  attempt_env rt backend w = (Ok tt, record (EnvRead "WORLD_SIZE") w).
Proof.
  intros Hs Hn Hle. unfold attempt_env, bind, environ_getitem, py_int.
  rewrite Hs, Hn. cbn [of_option ret].
  destruct (Z.ltb_spec 1 n); [lia | reflexivity].
Qed.

(** A malformed world size: [int] raises inside the [try]. *)
Lemma attempt_env_malformed w s :
  w_env w !! "WORLD_SIZE" = Some s -> int rt s = None ->
  attempt_env rt backend w =
  (Raise (ValueError s), record (EnvRead "WORLD_SIZE") w).
Proof.
  intros Hs Hn. unfold attempt_env, bind, environ_getitem, py_int.
  rewrite Hs, Hn. reflexivity.
Qed.

(** Several processes and a failed rendezvous. *)
Lemma attempt_env_init_raises w s n e :
  w_env w !! "WORLD_SIZE" = Some s -> int rt s = Some n -> 1 < n ->
  dist_init_process_group rt backend "env://" None None (w_env w) (w_dist w)
    = inl e ->
  attempt_env rt backend w =
  (Raise e,
   record (InitProcessGroup backend "env://" None None)
     (record (EnvRead "WORLD_SIZE") w)).
Proof.
  intros Hs Hn Hlt He. unfold attempt_env, bind, environ_getitem, py_int.
  rewrite Hs, Hn. cbn [of_option ret].
  destruct (Z.ltb_spec 1 n); [|lia].
  unfold init_process_group. cbn [w_env w_dist record]. rewrite He.
  reflexivity.
Qed.

(** Several processes, a formed group and its barrier. *)
Lemma attempt_env_init_returns w s n g :
  w_env w !! "WORLD_SIZE" = Some s -> int rt s = Some n -> 1 < n ->
  dist_init_process_group rt backend "env://" None None (w_env w) (w_dist w)
    = inr g ->
  attempt_env rt backend w =
  (match dist_barrier rt g with Some e => Raise e | None => Ok tt end,
   record Barrier
     (with_dist (Some g)
        (record (InitProcessGroup backend "env://" None None)
           (record (EnvRead "WORLD_SIZE") w)))).
Proof.
  intros Hs Hn Hlt Hg. unfold attempt_env, bind, environ_getitem, py_int.
  rewrite Hs, Hn. cbn [of_option ret].
  destruct (Z.ltb_spec 1 n); [|lia].
  unfold init_process_group. cbn [w_env w_dist record]. rewrite Hg.
  unfold synchronize. cbn [w_dist with_dist].
  destruct (dist_barrier rt g); reflexivity.
Qed.

(** Lines 64-70. *)
Lemma bind_device_run w :
  bind_device rt w =
  let w2 := record (EnvRead "LOCAL_RANK") (record (EnvRead "SLURM_LOCALID") w) in
  match int rt (Spec.local_rank (w_env w)) with
  | None => (Raise (ValueError (Spec.local_rank (w_env w))), w2)
  | Some lr =>
      (match cuda_set_device rt lr with Some e => Raise e | None => Ok lr end,
       record (SetDevice lr) w2)
  end.
Proof.
  unfold bind_device. rewrite !bind_environ_get. cbn [w_env record].
  rewrite default_fallback_chain. fold (Spec.local_rank (w_env w)).
  unfold bind, py_int.
  destruct (int rt (Spec.local_rank (w_env w))) as [lr|]; [|reflexivity].
  cbn [of_option ret]. unfold set_device.
  destruct (cuda_set_device rt lr); reflexivity.
Qed.

End JoinGroup.

(** ** Footprints of the primitives and of the later phases *)

Section Footprint.

Context {P : event -> Prop}.

Lemma footprint_ret {A : Type} (a : A) : footprint P (ret a).
Proof. intros w. split; [reflexivity|]. exists []. now rewrite app_nil_r. Qed.

Lemma footprint_raise {A : Type} e : footprint P (@raise A e).
Proof. intros w. split; [reflexivity|]. exists []. now rewrite app_nil_r. Qed.

Lemma footprint_bind {A B : Type} (m : M A) (k : A -> M B) :
  footprint P m -> (forall a, footprint P (k a)) -> footprint P (bind m k).
Proof.
  intros Hm Hk w. unfold bind.
  destruct (Hm w) as [He (evs & Ht & Hf)].
  destruct (m w) as [[a|e] w1]; cbn [snd] in *.
  - destruct (Hk a w1) as [He' (evs' & Ht' & Hf')].
    split; [congruence|].
    exists (evs ++ evs')%list. split; [|now apply Forall_app].
    rewrite Ht', Ht. now rewrite app_assoc.
  - split; [assumption|]. now exists evs.
Qed.

Lemma footprint_try_except {A : Type} (body : M A) handler :
  footprint P body -> (forall e, footprint P (handler e)) ->
  footprint P (try_except body handler).
Proof.
  intros Hb Hh w. unfold try_except.
  destruct (Hb w) as [He (evs & Ht & Hf)].
  destruct (body w) as [[a|e] w1]; cbn [snd] in *.
  - split; [assumption|]. now exists evs.
  - destruct (is_Exception e); cbn [snd].
    + destruct (Hh e w1) as [He' (evs' & Ht' & Hf')].
      split; [congruence|].
      exists (evs ++ evs')%list. split; [|now apply Forall_app].
      rewrite Ht', Ht. now rewrite app_assoc.
    + split; [assumption|]. now exists evs.
Qed.

Lemma footprint_of_option {A : Type} (o : option A) e :
  footprint P (of_option o e).
Proof. destruct o; [apply footprint_ret | apply footprint_raise]. Qed.

Lemma footprint_emit ev : P ev -> footprint P (emit ev).
Proof.
  intros Hev w. split; [reflexivity|]. exists [ev].
  split; [reflexivity | now constructor].
Qed.

Lemma footprint_environ_get k d :
  P (EnvRead k) -> footprint P (environ_get k d).
Proof.
  intros Hev w. split; [reflexivity|]. exists [EnvRead k].
  split; [reflexivity | now constructor].
Qed.

Lemma footprint_environ_getitem k :
  P (EnvRead k) -> footprint P (environ_getitem k).
Proof.
  intros Hev w. unfold environ_getitem.
  destruct (w_env w !! k); (split; [reflexivity|]); exists [EnvRead k];
    (split; [reflexivity | now constructor]).
Qed.

Lemma footprint_init_process_group rt backend init_method world_size rank :
  P (InitProcessGroup backend init_method world_size rank) ->
  footprint P (init_process_group rt backend init_method world_size rank).
Proof.
  intros Hev w. unfold init_process_group.
  destruct (dist_init_process_group _ _ _ _ _ _ _);
    (split; [reflexivity|]);
    exists [InitProcessGroup backend init_method world_size rank];
    (split; [reflexivity | now constructor]).
Qed.

Lemma footprint_synchronize rt : P Barrier -> footprint P (synchronize rt).
Proof.
  intros Hev w. unfold synchronize.
  destruct (w_dist w) as [g|].
  - destruct (dist_barrier rt g); (split; [reflexivity|]); exists [Barrier];
      (split; [reflexivity | now constructor]).
  - split; [reflexivity|]. exists []. now rewrite app_nil_r.
Qed.

Lemma footprint_set_device rt d :
  P (SetDevice d) -> footprint P (set_device rt d).
Proof.
  intros Hev w. unfold set_device.
  destruct (cuda_set_device rt d); (split; [reflexivity|]);
    exists [SetDevice d]; (split; [reflexivity | now constructor]).
Qed.

End Footprint.

(** Everything after line 51 leaves the environment alone. *)
Lemma join_group_no_write rt backend :
  footprint not_env_write (join_group rt backend).
Proof.
  apply footprint_try_except.
  - apply footprint_bind; [now apply footprint_environ_getitem|]. intros s.
    apply footprint_bind; [apply footprint_of_option|]. intros n.
    destruct (1 <? n); [|apply footprint_ret].
    apply footprint_bind; [now apply footprint_init_process_group|]. intros _.
    now apply footprint_synchronize.
  - intros e.
    apply footprint_bind; [now apply footprint_environ_getitem|]. intros a.
    apply footprint_bind; [now apply footprint_environ_getitem|]. intros p.
    apply footprint_bind; [now apply footprint_emit|]. intros _.
    apply footprint_raise.
Qed.

Lemma bind_device_no_write rt : footprint not_env_write (bind_device rt).
Proof.
  apply footprint_bind; [now apply footprint_environ_get|]. intros localid.
  apply footprint_bind; [now apply footprint_environ_get|]. intros lr.
  apply footprint_bind; [apply footprint_of_option|]. intros n.
  apply footprint_bind; [now apply footprint_set_device|]. intros _.
  apply footprint_ret.
Qed.

(** ** The run of [init_distributed_env] as a whole *)

Lemma local_rank_normalized env :
  Spec.local_rank (normalized_env env) = Spec.local_rank env.
Proof.
  unfold Spec.local_rank, Spec.fallback_chain.
  rewrite !normalized_env_other by discriminate. reflexivity.
Qed.

(** The environment after the call, whatever its outcome. *)
Lemma init_distributed_env_final_env rt backend w :
  cuda_is_available rt = true ->
  w_env (snd (init_distributed_env rt backend w)) = normalized_env (w_env w).
Proof.
  intros Hcuda. rewrite init_distributed_env_phases by assumption.
  pose proof (footprint_bind (P := not_env_write) _ _
                (join_group_no_write rt backend)
                (fun _ => bind_device_no_write rt)) as H.
  destruct (H (World (normalized_env (w_env w)) (w_dist w)
                 (w_trace w ++ normalize_events (w_env w)))) as [He _].
  exact He.
Qed.

(** A returned value is the integer spelled by the resolved local rank. *)
Lemma init_distributed_env_returned rt backend w lr :
  fst (init_distributed_env rt backend w) = Ok lr ->
  int rt (Spec.local_rank (w_env w)) = Some lr.
Proof.
  destruct (cuda_is_available rt) eqn:Hcuda.
  2:{ rewrite init_distributed_env_no_device by assumption. discriminate. }
  rewrite init_distributed_env_phases by assumption.
  set (w1 := World _ _ _). unfold bind at 1.
  destruct (join_group_no_write rt backend w1) as [He _].
  destruct (join_group rt backend w1) as [[[]|e] w2]; [|discriminate].
  cbn [snd] in He. rewrite bind_device_run. cbn zeta.
  rewrite He. subst w1. cbn [w_env]. rewrite local_rank_normalized.
  destruct (int rt (Spec.local_rank (w_env w))) as [n|]; [|discriminate].
  cbn [fst]. destruct (cuda_set_device rt n); [discriminate|].
  congruence.
Qed.

(** One process: the call returns as soon as the local rank is an integer
    and the device can be bound. *)
Lemma init_distributed_env_returns_single rt backend w n lr :
  cuda_is_available rt = true ->
  int rt (Spec.world_size (w_env w)) = Some n -> n <= 1 ->
  int rt (Spec.local_rank (w_env w)) = Some lr ->
  cuda_set_device rt lr = None ->
  init_distributed_env rt backend w =
  (Ok lr,
   World (normalized_env (w_env w)) (w_dist w)
     (w_trace w ++ normalize_events (w_env w) ++
      [EnvRead "WORLD_SIZE"; EnvRead "SLURM_LOCALID"; EnvRead "LOCAL_RANK";
       SetDevice lr])).
Proof.
  intros Hcuda Hn Hle Hlr Hdev.
  rewrite init_distributed_env_phases by assumption.
  set (w1 := World _ _ _).
  assert (Hj : join_group rt backend w1 = (Ok tt, record (EnvRead "WORLD_SIZE") w1)).
  { apply try_except_ok.
    eapply attempt_env_single; [apply normalized_env_world_size | exact Hn | exact Hle]. }
  rewrite (bind_ok _ _ _ _ _ Hj), bind_device_run. cbn zeta.
  subst w1. cbn [w_env record w_dist w_trace].
  rewrite local_rank_normalized, Hlr, Hdev.
  unfold record; cbn [w_env w_dist w_trace].
  rewrite <- !app_assoc. reflexivity.
Qed.

(** Several processes: the call returns once the group is formed and the
    barrier is passed. *)
Lemma init_distributed_env_returns_group rt backend w n lr g :
  cuda_is_available rt = true ->
  int rt (Spec.world_size (w_env w)) = Some n -> 1 < n ->
  dist_init_process_group rt backend "env://" None None
    (normalized_env (w_env w)) (w_dist w) = inr g ->
  dist_barrier rt g = None ->
  int rt (Spec.local_rank (w_env w)) = Some lr ->
  cuda_set_device rt lr = None ->
  init_distributed_env rt backend w =
  (Ok lr,
   World (normalized_env (w_env w)) (Some g)
     (w_trace w ++ normalize_events (w_env w) ++
      [EnvRead "WORLD_SIZE"; InitProcessGroup backend "env://" None None;
       Barrier; EnvRead "SLURM_LOCALID"; EnvRead "LOCAL_RANK"; SetDevice lr])).
Proof.
  intros Hcuda Hn Hlt Hg Hbar Hlr Hdev.
  rewrite init_distributed_env_phases by assumption.
  set (w1 := World _ _ _).
  assert (Hj : join_group rt backend w1 =
               (Ok tt,
                record Barrier
                  (with_dist (Some g)
                     (record (InitProcessGroup backend "env://" None None)
                        (record (EnvRead "WORLD_SIZE") w1))))).
  { apply try_except_ok.
    erewrite attempt_env_init_returns;
      [rewrite Hbar; reflexivity | apply normalized_env_world_size
       | exact Hn | exact Hlt | exact Hg]. }
  rewrite (bind_ok _ _ _ _ _ Hj), bind_device_run. cbn zeta.
  subst w1. cbn [w_env record w_dist w_trace with_dist].
  rewrite local_rank_normalized, Hlr, Hdev.
  unfold record, with_dist; cbn [w_env w_dist w_trace].
  rewrite <- !app_assoc. reflexivity.
Qed.

(** The effects of the call: the normalisation, then no further write. *)
Lemma init_distributed_env_effects rt backend w :
  cuda_is_available rt = true ->
  exists evs,
    w_trace (snd (init_distributed_env rt backend w)) =
      (w_trace w ++ normalize_events (w_env w) ++ evs)%list /\
    Forall not_env_write evs.
Proof.
  intros Hcuda. rewrite init_distributed_env_phases by assumption.
  pose proof (footprint_bind (P := not_env_write) _ _
                (join_group_no_write rt backend)
                (fun _ => bind_device_no_write rt)) as H.
  destruct (H (World (normalized_env (w_env w)) (w_dist w)
                 (w_trace w ++ normalize_events (w_env w))))
    as [_ (evs & Ht & Hf)].
  exists evs. split; [|assumption].
  rewrite Ht. cbn [w_trace]. now rewrite app_assoc.
Qed.

(** * The specified properties *)

(** C1.  In every environment, [init_distributed_env] (once past the device
    assertion) resolves each bootstrap parameter by the chain explicit
    override, scheduler variable, hard-coded default: after the call
    [MASTER_ADDR] holds its own previous value, else the last comma-separated
    entry of [SLURM_NODELIST], else ["localhost"]; [RANK] holds its previous
    value, else [SLURM_PROCID], else ["0"]; [WORLD_SIZE] holds its previous
    value, else [SLURM_NTASKS], else ["1"].  The local rank is resolved from
    [LOCAL_RANK], else [SLURM_LOCALID], else ["0"]: whatever the call returns
    is that value read as an integer, and the call does return it, both when
    the world size is at most one and when the group is formed and the
    barrier passed, provided the value is an integer literal and the device
    can be bound. *)
Theorem init_distributed_env_fallback_chain rt backend w :
  cuda_is_available rt = true ->
  let env := w_env w in
  let out := init_distributed_env rt backend w in
  w_env (snd out) !! "MASTER_ADDR" = Some (Spec.master_addr env) /\
  w_env (snd out) !! "RANK" =
    Some (Spec.fallback_chain env "RANK" "SLURM_PROCID" "0") /\
  w_env (snd out) !! "WORLD_SIZE" =
    Some (Spec.fallback_chain env "WORLD_SIZE" "SLURM_NTASKS" "1") /\
  (forall lr, fst out = Ok lr ->
     int rt (Spec.fallback_chain env "LOCAL_RANK" "SLURM_LOCALID" "0") = Some lr) /\
  (forall n lr,
     int rt (Spec.world_size env) = Some n -> n <= 1 ->
     int rt (Spec.fallback_chain env "LOCAL_RANK" "SLURM_LOCALID" "0") = Some lr ->
     cuda_set_device rt lr = None ->
     fst out = Ok lr) /\
  (forall n lr g,
     int rt (Spec.world_size env) = Some n -> 1 < n ->
     dist_init_process_group rt backend "env://" None None
       (normalized_env env) (w_dist w) = inr g ->
     dist_barrier rt g = None ->
     int rt (Spec.fallback_chain env "LOCAL_RANK" "SLURM_LOCALID" "0") = Some lr ->
     cuda_set_device rt lr = None ->
     fst out = Ok lr).
Proof.
  intros Hcuda env out. subst out env.
  rewrite init_distributed_env_final_env by assumption.
  split; [apply normalized_env_master_addr|].
  split; [apply normalized_env_rank|].
  split; [apply normalized_env_world_size|].
  split; [intros lr; apply init_distributed_env_returned|].
  split.
  - intros n lr Hn Hle Hlr Hdev.
    now rewrite (init_distributed_env_returns_single rt backend w n lr).
  - intros n lr g Hn Hlt Hg Hbar Hlr Hdev.
    now rewrite (init_distributed_env_returns_group rt backend w n lr g).
Qed.

Lemma init_distributed_env_fallback_chain_witness :
  cuda_is_available reference_runtime = true /\
  let out := init_distributed_env reference_runtime "nccl" (start slurm_env) in
  w_env (snd out) !! "MASTER_ADDR" = Some "node2" /\
  w_env (snd out) !! "RANK" = Some "3" /\
  w_env (snd out) !! "WORLD_SIZE" = Some "4" /\
  fst out = Ok 1.
Proof.
  split; [reflexivity|].
  pose proof (init_distributed_env_fallback_chain
                reference_runtime "nccl" (start slurm_env) eq_refl)
    as (Ha & Hr & Hs & _ & _ & Hret).
  cbv zeta. rewrite Ha, Hr, Hs.
  split; [reflexivity|]. split; [reflexivity|]. split; [reflexivity|].
  apply (Hret 4 1 (ProcessGroup 3 4)); vm_compute; reflexivity.
Defined.

(** C6.  Without a compatible accelerator device both initialization
    operations fail at entry with the failed assertion the specification
    calls DeviceUnavailable, and the world is returned as it was: the
    environment is unchanged and the trace has no new event, so no
    environment variable was read or written (and nothing else was done). *)
Theorem device_unavailable_fails_at_entry rt w :
  cuda_is_available rt = false ->
  (forall backend,
     init_distributed_env rt backend w = (Raise Spec.DeviceUnavailable, w)) /\
  (forall local_rank machine_rank num_gpus_per_machine num_machines dist_url backend,
     init_distributed_tcp rt local_rank machine_rank num_gpus_per_machine
       num_machines dist_url backend w = (Raise Spec.DeviceUnavailable, w)).
Proof.
  intros Hcuda. split; intros.
  - now apply init_distributed_env_no_device.
  - now apply init_distributed_tcp_no_device.
Qed.

Lemma device_unavailable_fails_at_entry_witness :
  cuda_is_available cpu_only_runtime = false /\
  init_distributed_env cpu_only_runtime "nccl" (start slurm_env) =
    (Raise (AssertionError "Cannot use GPU, CUDA not found!"), start slurm_env) /\
  init_distributed_tcp cpu_only_runtime 1 1 2 2 default_dist_url "nccl"
    (start slurm_env) =
    (Raise (AssertionError "Cannot use GPU, CUDA not found!"), start slurm_env).
Proof.
  split; [reflexivity|].
  destruct (device_unavailable_fails_at_entry cpu_only_runtime (start slurm_env)
              eq_refl) as [He Ht].
  split; [apply He | apply Ht].
Defined.

(** C4.  When no process group has been formed, every query answers with its
    default: [get_rank] is 0, [get_world_size] is 1, [is_master_process] is
    true, [synchronize] returns at once without calling the barrier (the
    world, trace included, is unchanged), and [average_across_processes t]
    returns [t] itself without calling the collective. *)
Theorem single_process_defaults
    rt (Tensor : Type) all_reduce_sum tensor_idiv (t : Tensor) w :
  w_dist w = None ->
  get_rank w = 0 /\
  get_world_size w = 1 /\
  is_master_process w = true /\
  synchronize rt w = (Ok tt, w) /\
  average_across_processes Tensor all_reduce_sum tensor_idiv t w = (Ok t, w).
Proof.
  intros Hd.
  unfold is_master_process, get_rank, get_world_size, synchronize,
    average_across_processes.
  rewrite Hd. repeat split.
Qed.

Lemma single_process_defaults_witness :
  w_dist (start ∅) = None /\
  get_rank (start ∅) = 0 /\
  get_world_size (start ∅) = 1 /\
  is_master_process (start ∅) = true /\
  synchronize reference_runtime (start ∅) = (Ok tt, start ∅) /\
  average_across_processes Z (fun _ t => inr t) (fun t n => inr (t / n)) 7
    (start ∅) = (Ok 7, start ∅).
Proof.
  split; [reflexivity|].
  apply (single_process_defaults reference_runtime Z). reflexivity.
Defined.

(** C10.  [init_distributed_env] writes at most the three keys
    [MASTER_ADDR], [RANK] and [WORLD_SIZE]: whatever the outcome of the call,
    every other key of the environment (for instance [LOCAL_RANK],
    [SLURM_LOCALID] and [MASTER_PORT]) holds what it held before, and every
    write the call performs is to one of the three. *)
Theorem init_distributed_env_writes_three_keys rt backend w k :
  k <> "MASTER_ADDR" -> k <> "RANK" -> k <> "WORLD_SIZE" ->
  let out := init_distributed_env rt backend w in
  w_env (snd out) !! k = w_env w !! k /\
  exists evs,
    w_trace (snd out) = (w_trace w ++ evs)%list /\
    forall k' v, EnvWrite k' v ∈ evs ->
      k' = "MASTER_ADDR" \/ k' = "RANK" \/ k' = "WORLD_SIZE".
Proof.
  intros H1 H2 H3 out. subst out.
  destruct (cuda_is_available rt) eqn:Hcuda.
  - split.
    + rewrite init_distributed_env_final_env by assumption.
      now apply normalized_env_other.
    + destruct (init_distributed_env_effects rt backend w Hcuda)
        as (evs & Ht & Hf).
      exists (normalize_events (w_env w) ++ evs)%list. split; [exact Ht|].
      intros k' v Hin. apply elem_of_app in Hin as [Hin|Hin].
      * unfold normalize_events in Hin.
        repeat (apply elem_of_cons in Hin as [Hin|Hin];
                [inversion Hin; subst; auto|]).
        now apply elem_of_nil in Hin.
      * rewrite Forall_forall in Hf. apply Hf in Hin. discriminate.
  - rewrite init_distributed_env_no_device by assumption. cbn [snd].
    split; [reflexivity|]. exists []. split; [now rewrite app_nil_r|].
    intros k' v Hin. now apply elem_of_nil in Hin.
Qed.

Lemma init_distributed_env_writes_three_keys_witness :
  let out := init_distributed_env reference_runtime "nccl" (start slurm_env) in
  w_env (snd out) !! "LOCAL_RANK" = None /\
  w_env (snd out) !! "SLURM_LOCALID" = Some "1" /\
  w_env (snd out) !! "MASTER_PORT" = Some "29500" /\
  fst out = Ok 1.
Proof.
  cbv zeta.
  split.
  { apply (init_distributed_env_writes_three_keys reference_runtime "nccl"
             (start slurm_env) "LOCAL_RANK"); discriminate. }
  split.
  { apply (init_distributed_env_writes_three_keys reference_runtime "nccl"
             (start slurm_env) "SLURM_LOCALID"); discriminate. }
  split.
  { apply (init_distributed_env_writes_three_keys reference_runtime "nccl"
             (start slurm_env) "MASTER_PORT"); discriminate. }
  vm_compute. reflexivity.
Defined.

(** With a world size of at most one the [try] statement only reads
    [WORLD_SIZE]; what remains is the device binding. *)
Lemma init_distributed_env_single rt backend w n :
  cuda_is_available rt = true ->
  int rt (Spec.world_size (w_env w)) = Some n -> n <= 1 ->
  init_distributed_env rt backend w =
  bind_device rt
    (World (normalized_env (w_env w)) (w_dist w)
       (w_trace w ++ normalize_events (w_env w) ++ [EnvRead "WORLD_SIZE"])).
Proof.
  intros Hcuda Hn Hle.
  rewrite init_distributed_env_phases by assumption.
  set (w1 := World _ _ _).
  assert (Hj : join_group rt backend w1 = (Ok tt, record (EnvRead "WORLD_SIZE") w1)).
  { apply try_except_ok.
    eapply attempt_env_single; [apply normalized_env_world_size | exact Hn | exact Hle]. }
  rewrite (bind_ok _ _ _ _ _ Hj). subst w1.
  unfold record; cbn [w_env w_dist w_trace].
  now rewrite <- app_assoc.
Qed.

(** The outcome of the device binding depends on the resolved local rank
    alone. *)
Lemma bind_device_outcome rt w :
  fst (bind_device rt w) =
  match int rt (Spec.local_rank (w_env w)) with
  | None => Raise (ValueError (Spec.local_rank (w_env w)))
  | Some lr =>
      match cuda_set_device rt lr with Some e => Raise e | None => Ok lr end
  end.
Proof.
  rewrite bind_device_run. cbn zeta.
  destruct (int rt (Spec.local_rank (w_env w))); reflexivity.
Qed.

(** The device binding reads two keys and binds at most once. *)
Lemma bind_device_events rt w :
  exists evs,
    w_trace (snd (bind_device rt w)) = (w_trace w ++ evs)%list /\
    Forall (fun ev => ev = EnvRead "SLURM_LOCALID" \/ ev = EnvRead "LOCAL_RANK" \/
                      exists d, ev = SetDevice d) evs.
Proof.
  rewrite bind_device_run. cbn zeta.
  destruct (int rt (Spec.local_rank (w_env w))) as [lr|]; cbn [snd].
  - exists [EnvRead "SLURM_LOCALID"; EnvRead "LOCAL_RANK"; SetDevice lr].
    split.
    + unfold record; cbn [w_trace]. now rewrite <- !app_assoc.
    + repeat (constructor; [eauto|]). constructor.
  - exists [EnvRead "SLURM_LOCALID"; EnvRead "LOCAL_RANK"].
    split.
    + unfold record; cbn [w_trace]. now rewrite <- !app_assoc.
    + repeat (constructor; [eauto|]). constructor.
Qed.

Lemma world_size_without_port env :
  Spec.world_size (delete "MASTER_PORT" env) = Spec.world_size env.
Proof.
  unfold Spec.world_size, Spec.fallback_chain.
  rewrite !lookup_delete_ne by discriminate. reflexivity.
Qed.

Lemma local_rank_without_port env :
  Spec.local_rank (delete "MASTER_PORT" env) = Spec.local_rank env.
Proof.
  unfold Spec.local_rank, Spec.fallback_chain.
  rewrite !lookup_delete_ne by discriminate. reflexivity.
Qed.

(** C9.  When [WORLD_SIZE] resolves to an integer of at most one (and a
    device is present), [init_distributed_env] never looks [MASTER_PORT] up:
    the effects of the call contain no read of [MASTER_PORT], no attempt to
    form a group and no error log, so the handler, which holds the only
    lookup of [MASTER_PORT], is not entered.  The outcome is the same as in
    the environment with [MASTER_PORT] removed; and with [MASTER_PORT] absent
    the call completes, returning the local rank, as soon as the local rank
    is an integer literal and the device can be bound. *)
Theorem single_process_never_reads_master_port rt backend w n :
  cuda_is_available rt = true ->
  int rt (Spec.world_size (w_env w)) = Some n -> n <= 1 ->
  let out := init_distributed_env rt backend w in
  (exists evs,
     w_trace (snd out) = (w_trace w ++ evs)%list /\
     (EnvRead "MASTER_PORT" ∉ evs) /\
     (forall msg, LogError msg ∉ evs) /\
     (forall b u s r, InitProcessGroup b u s r ∉ evs)) /\
  fst out =
    fst (init_distributed_env rt backend
           (with_env (delete "MASTER_PORT" (w_env w)) w)) /\
  (forall lr,
     w_env w !! "MASTER_PORT" = None ->
     int rt (Spec.local_rank (w_env w)) = Some lr ->
     cuda_set_device rt lr = None ->
     fst out = Ok lr).
Proof.
  intros Hcuda Hn Hle out. subst out.
  split; [|split].
  - rewrite (init_distributed_env_single rt backend w n) by assumption.
    set (w1 := World _ _ _).
    destruct (bind_device_events rt w1) as (evs & Ht & Hf).
    exists (normalize_events (w_env w) ++ [EnvRead "WORLD_SIZE"] ++ evs)%list.
    split.
    { rewrite Ht. subst w1. cbn [w_trace]. now rewrite <- !app_assoc. }
    rewrite Forall_forall in Hf.
    assert (Hall : forall ev,
               ev ∈ (normalize_events (w_env w) ++ [EnvRead "WORLD_SIZE"] ++ evs)%list ->
               ev <> EnvRead "MASTER_PORT" /\
               (forall msg, ev <> LogError msg) /\
               (forall b u s r, ev <> InitProcessGroup b u s r)).
    { intros ev Hin.
      apply elem_of_app in Hin as [Hin|Hin].
      - unfold normalize_events in Hin.
        repeat (apply elem_of_cons in Hin as [->|Hin];
                [repeat split; intros; discriminate|]).
        now apply elem_of_nil in Hin.
      - apply elem_of_app in Hin as [Hin|Hin].
        + apply list_elem_of_singleton in Hin as ->.
          repeat split; intros; discriminate.
        + destruct (Hf ev Hin) as [->|[->|[d ->]]];
            repeat split; intros; discriminate. }
    split; [|split].
    + intros Hin. now destruct (Hall _ Hin) as [H _].
    + intros msg Hin. destruct (Hall _ Hin) as (_ & H & _). now apply (H msg).
    + intros b u s r Hin. destruct (Hall _ Hin) as (_ & _ & H).
      now apply (H b u s r).
  - rewrite (init_distributed_env_single rt backend w n) by assumption.
    rewrite (init_distributed_env_single rt backend
               (with_env (delete "MASTER_PORT" (w_env w)) w) n);
      [| assumption
       | cbn [with_env w_env]; now rewrite world_size_without_port
       | assumption].
    rewrite !bind_device_outcome. cbn [w_env with_env].
    now rewrite !local_rank_normalized, local_rank_without_port.
  - intros lr _ Hlr Hdev.
    now rewrite (init_distributed_env_returns_single rt backend w n lr).
Qed.

Lemma single_process_never_reads_master_port_witness :
  cuda_is_available reference_runtime = true /\
  int reference_runtime (Spec.world_size second_device_env) = Some 1 /\
  second_device_env !! "MASTER_PORT" = None /\
  fst (init_distributed_env reference_runtime "nccl" (start second_device_env))
    = Ok 1.
Proof.
  split; [reflexivity|]. split; [reflexivity|]. split; [reflexivity|].
  apply (single_process_never_reads_master_port reference_runtime "nccl"
           (start second_device_env) 1); vm_compute; congruence.
Defined.

(** ** [init_distributed_tcp] *)

Lemma init_distributed_tcp_phases
    rt local_rank machine_rank num_gpus_per_machine num_machines dist_url backend w :
  cuda_is_available rt = true ->
  init_distributed_tcp rt local_rank machine_rank num_gpus_per_machine
    num_machines dist_url backend w =
  (let* _ :=
     try_except
       (attempt_tcp rt (num_machines * num_gpus_per_machine)
          (machine_rank * num_gpus_per_machine + local_rank) dist_url backend)
       (report_tcp dist_url) in
   let* _ := set_device rt local_rank in
   ret local_rank) w.
Proof.
  intros Hcuda. unfold init_distributed_tcp, py_assert. rewrite Hcuda.
  reflexivity.
Qed.

(** With more than one process the first thing the [try] body does is the
    call of [init_process_group] with the computed world size and rank. *)
Lemma attempt_tcp_calls_init rt world_size world_rank dist_url backend w :
  1 < world_size ->
  exists r d rest,
    attempt_tcp rt world_size world_rank dist_url backend w =
    (r, World (w_env w) d
          (w_trace w ++
           InitProcessGroup backend dist_url (Some world_size) (Some world_rank)
             :: rest)).
Proof.
  intros Hlt. unfold attempt_tcp.
  destruct (Z.ltb_spec 1 world_size); [|lia].
  unfold bind, init_process_group.
  destruct (dist_init_process_group _ _ _ _ _ _ _) as [e|g].
  - now exists (Raise e), (w_dist w), [].
  - unfold synchronize, record, with_dist. cbn [w_env w_dist w_trace].
    destruct (dist_barrier rt g) as [e|].
    + exists (Raise e), (Some g), [Barrier]. now rewrite <- app_assoc.
    + exists (Ok tt), (Some g), [Barrier]. now rewrite <- app_assoc.
Qed.

(** Whatever follows in the monad only extends the trace. *)
Lemma footprint_extends {A : Type} (m : M A) w :
  footprint (fun _ => True) m ->
  exists evs, w_trace (snd (m w)) = (w_trace w ++ evs)%list.
Proof. intros H. destruct (H w) as (_ & evs & Ht & _). now exists evs. Qed.

(** The handler: one log line, then the same exception. *)
Lemma report_tcp_run {A : Type} dist_url e w :
  @report_tcp A dist_url e w =
  (Raise e, record (LogError ("Dist URL: " ++ dist_url)%string) w).
Proof. reflexivity. Qed.

Lemma set_device_then_return_footprint rt (local_rank : Z) :
  footprint (fun _ => True)
    (let* _ := set_device rt local_rank in ret local_rank).
Proof.
  apply footprint_bind; [now apply footprint_set_device|]. intros _.
  apply footprint_ret.
Qed.

(** C5.  [init_distributed_tcp] computes
    [world_size = num_machines * num_gpus_per_machine] and
    [rank = machine_rank * num_gpus_per_machine + local_rank], for all
    integer inputs (the non-negative ones among them): these are the values
    of its two local variables, and whenever a group is to be formed (a
    device is present and the world size exceeds one) the first effect of the
    call is [init_process_group] with exactly these two values.  For
    [local_rank = 1], [machine_rank = 1], [num_gpus_per_machine = 2],
    [num_machines = 2] the world size is 4 and the rank is 3. *)
Theorem init_distributed_tcp_world_size_and_rank
    rt local_rank machine_rank num_gpus_per_machine num_machines dist_url backend w :
  tcp_world_size num_gpus_per_machine num_machines =
    num_machines * num_gpus_per_machine /\
  tcp_world_rank local_rank machine_rank num_gpus_per_machine =
    machine_rank * num_gpus_per_machine + local_rank /\
  (cuda_is_available rt = true ->
   1 < num_machines * num_gpus_per_machine ->
   exists rest,
     w_trace (snd (init_distributed_tcp rt local_rank machine_rank
                     num_gpus_per_machine num_machines dist_url backend w)) =
     (w_trace w ++
      InitProcessGroup backend dist_url
        (Some (num_machines * num_gpus_per_machine))
        (Some (machine_rank * num_gpus_per_machine + local_rank)) :: rest)%list) /\
  tcp_world_size 2 2 = 4 /\
  tcp_world_rank 1 1 2 = 3.
Proof.
  split; [reflexivity|]. split; [reflexivity|].
  split; [|split; reflexivity].
  intros Hcuda Hlt.
  rewrite init_distributed_tcp_phases by assumption.
  set (ws := num_machines * num_gpus_per_machine) in *.
  set (wr := machine_rank * num_gpus_per_machine + local_rank).
  destruct (attempt_tcp_calls_init rt ws wr dist_url backend w Hlt)
    as (r & d & rest & Hrun).
  set (w1 := World _ _ _) in Hrun.
  unfold bind at 1, try_except. rewrite Hrun.
  assert (Hext : forall (m : M Z), footprint (fun _ => True) m ->
            exists rest', w_trace (snd (m w1)) =
              (w_trace w ++ InitProcessGroup backend dist_url (Some ws) (Some wr)
                 :: rest')%list).
  { intros m Hm. destruct (footprint_extends m w1 Hm) as (evs & Ht).
    exists (rest ++ evs)%list. rewrite Ht. subst w1. cbn [w_trace].
    now rewrite <- app_assoc. }
  destruct r as [[]|e].
  - apply Hext, set_device_then_return_footprint.
  - destruct (is_Exception e).
    + rewrite report_tcp_run. cbn [snd]. subst w1.
      exists (rest ++ [LogError ("Dist URL: " ++ dist_url)%string])%list.
      unfold record; cbn [w_trace]. now rewrite <- app_assoc.
    + now exists rest.
Qed.

Lemma init_distributed_tcp_world_size_and_rank_witness :
  cuda_is_available reference_runtime = true /\
  1 < 2 * 2 /\
  exists rest,
    w_trace (snd (init_distributed_tcp reference_runtime 1 1 2 2
                    default_dist_url default_backend (start ∅))) =
    InitProcessGroup "nccl" "tcp://127.0.0.1:23456" (Some 4) (Some 3) :: rest.
Proof.
  split; [reflexivity|]. split; [reflexivity|].
  apply (init_distributed_tcp_world_size_and_rank reference_runtime 1 1 2 2
           default_dist_url default_backend (start ∅)); reflexivity.
Defined.

(** ** Successful group formation *)

Lemma report_env_raises {A : Type} e w :
  exists e' w', @report_env A e w = (Raise e', w').
Proof.
  unfold report_env, bind, environ_getitem.
  destruct (w_env w !! "MASTER_ADDR"); [|eauto].
  cbn [w_env record].
  destruct (w_env w !! "MASTER_PORT"); eauto.
Qed.

Lemma bind_device_dist rt w : w_dist (snd (bind_device rt w)) = w_dist w.
Proof.
  rewrite bind_device_run. cbn zeta.
  destruct (int rt (Spec.local_rank (w_env w))); reflexivity.
Qed.

(** A call that returns with a world size above one has formed a group, and
    that group is the default group from then on. *)
Lemma init_distributed_env_formed rt backend w n lr :
  fst (init_distributed_env rt backend w) = Ok lr ->
  int rt (Spec.world_size (w_env w)) = Some n -> 1 < n ->
  exists g,
    dist_init_process_group rt backend "env://" None None
      (normalized_env (w_env w)) (w_dist w) = inr g /\
    w_dist (snd (init_distributed_env rt backend w)) = Some g.
Proof.
  intros Hok Hn Hlt.
  destruct (cuda_is_available rt) eqn:Hcuda.
  2:{ rewrite init_distributed_env_no_device in Hok by assumption. discriminate. }
  revert Hok. rewrite init_distributed_env_phases by assumption.
  set (w1 := World _ _ _).
  pose proof (normalized_env_world_size (w_env w)) as Hs.
  destruct (dist_init_process_group rt backend "env://" None None
              (normalized_env (w_env w)) (w_dist w)) as [e|g] eqn:Hinit.
  - (* the rendezvous raised: so does the call *)
    pose proof (attempt_env_init_raises rt backend w1 _ n e Hs Hn Hlt Hinit) as Ha.
    assert (Hj : exists e' w', join_group rt backend w1 = (Raise e', w')).
    { unfold join_group, try_except. rewrite Ha.
      destruct (is_Exception e); [apply report_env_raises | eauto]. }
    destruct Hj as (e' & w' & Hj).
    rewrite (bind_raise _ _ _ _ _ Hj). discriminate.
  - pose proof (attempt_env_init_returns rt backend w1 _ n g Hs Hn Hlt Hinit) as Ha.
    destruct (dist_barrier rt g) as [e|].
    + assert (Hj : exists e' w', join_group rt backend w1 = (Raise e', w')).
      { unfold join_group, try_except. rewrite Ha.
        destruct (is_Exception e); [apply report_env_raises | eauto]. }
      destruct Hj as (e' & w' & Hj).
      rewrite (bind_raise _ _ _ _ _ Hj). discriminate.
    + pose proof (try_except_ok _ report_env _ _ _ Ha) as Hj.
      fold (join_group rt backend) in Hj.
      rewrite (bind_ok _ _ _ _ _ Hj).
      intros _. exists g. split; [reflexivity|].
      now rewrite bind_device_dist.
Qed.

Lemma reference_runtime_contract : env_rendezvous_contract reference_runtime.
Proof.
  intros backend env cur g. cbn [reference_runtime dist_init_process_group].
  unfold reference_init, env_rendezvous.
  destruct cur; [discriminate|].
  destruct (env !! "RANK") as [r|]; [|discriminate].
  destruct (env !! "WORLD_SIZE") as [s|]; [|discriminate].
  destruct (env !! "MASTER_ADDR"); [|discriminate].
  destruct (env !! "MASTER_PORT"); [|discriminate].
  destruct (reference_int r) as [r'|] eqn:Hr; [|discriminate].
  destruct (reference_int s) as [s'|] eqn:Hs; [|discriminate].
  intros [= <-]. split; eauto.
Qed.

(** C7.  In every state, group formed or not, [is_master_process] is true
    exactly when [get_rank] is 0.  In particular, when [RANK=2] and
    [WORLD_SIZE=4] and [init_distributed_env] returns (so the group was
    formed, by a runtime that honours the [env://] contract), [get_rank] is 2
    and [is_master_process] is false. *)
Theorem master_iff_rank_zero rt backend w lr :
  (is_master_process w = true <-> get_rank w = 0) /\
  (env_rendezvous_contract rt ->
   w_env w !! "RANK" = Some "2" ->
   w_env w !! "WORLD_SIZE" = Some "4" ->
   fst (init_distributed_env rt backend w) = Ok lr ->
   get_rank (snd (init_distributed_env rt backend w)) = 2 /\
   is_master_process (snd (init_distributed_env rt backend w)) = false).
Proof.
  split.
  - unfold is_master_process. apply Z.eqb_eq.
  - intros Hcontract Hrank Hsize Hok.
    assert (Hws : Spec.world_size (w_env w) = "4").
    { unfold Spec.world_size, Spec.fallback_chain. now rewrite Hsize. }
    assert (Hrk : Spec.rank (w_env w) = "2").
    { unfold Spec.rank, Spec.fallback_chain. now rewrite Hrank. }
    destruct (init_distributed_env_formed rt backend w 4 lr Hok) as (g & Hg & Hd).
    { now rewrite Hws. }
    { lia. }
    destruct (Hcontract _ _ _ _ Hg) as [(r & Hr & Hir) _].
    rewrite normalized_env_rank, Hrk in Hr. injection Hr as Hr. subst r.
    assert (Hg2 : pg_rank g = 2).
    { assert (Htwo : int rt "2" = Some 2) by reflexivity. congruence. }
    unfold is_master_process, get_rank. rewrite Hd, Hg2. split; reflexivity.
Qed.

Lemma master_iff_rank_zero_witness :
  env_rendezvous_contract reference_runtime /\
  launcher_env !! "RANK" = Some "2" /\
  launcher_env !! "WORLD_SIZE" = Some "4" /\
  fst (init_distributed_env reference_runtime "nccl" (start launcher_env)) = Ok 0 /\
  get_rank (snd (init_distributed_env reference_runtime "nccl" (start launcher_env))) = 2 /\
  is_master_process
    (snd (init_distributed_env reference_runtime "nccl" (start launcher_env))) = false.
Proof.
  split; [apply reference_runtime_contract|].
  split; [reflexivity|]. split; [reflexivity|].
  split; [vm_compute; reflexivity|].
  apply (master_iff_rank_zero reference_runtime "nccl" (start launcher_env) 0).
  - apply reference_runtime_contract.
  - reflexivity.
  - reflexivity.
  - vm_compute. reflexivity.
Defined.

(** ** A failed rendezvous *)

(** [init_distributed_env], several processes, the rendezvous raises an
    [Exception] and [MASTER_PORT] is set: address and port are logged, then
    the same exception reaches the caller. *)
Lemma init_distributed_env_reraises rt backend w n e p :
  cuda_is_available rt = true ->
  int rt (Spec.world_size (w_env w)) = Some n -> 1 < n ->
  dist_init_process_group rt backend "env://" None None
    (normalized_env (w_env w)) (w_dist w) = inl e ->
  is_Exception e = true ->
  w_env w !! "MASTER_PORT" = Some p ->
  init_distributed_env rt backend w =
  (Raise e,
   World (normalized_env (w_env w)) (w_dist w)
     (w_trace w ++ normalize_events (w_env w) ++
      [EnvRead "WORLD_SIZE"; InitProcessGroup backend "env://" None None;
       EnvRead "MASTER_ADDR"; EnvRead "MASTER_PORT";
       LogError ("Dist URL: " ++ Spec.master_addr (w_env w) ++ ":" ++ p)%string])).
Proof.
  intros Hcuda Hn Hlt Hinit Hexc Hp.
  rewrite init_distributed_env_phases by assumption.
  set (w1 := World _ _ _).
  pose proof (attempt_env_init_raises rt backend w1 _ n e
                (normalized_env_world_size (w_env w)) Hn Hlt Hinit) as Ha.
  pose proof (try_except_caught _ report_env _ _ _ Ha Hexc) as Hj.
  fold (join_group rt backend) in Hj.
  rewrite (report_env_with_port (A := unit) e _ (Spec.master_addr (w_env w)) p) in Hj.
  - rewrite (bind_raise _ _ _ _ _ Hj). subst w1.
    unfold record; cbn [w_env w_dist w_trace].
    now rewrite <- !app_assoc.
  - apply normalized_env_master_addr.
  - subst w1. cbn [w_env record].
    now rewrite normalized_env_other by discriminate.
Qed.

(** The same run with [MASTER_PORT] unset: the handler's own lookup raises
    [KeyError] before the log call, and that is what reaches the caller. *)
Lemma init_distributed_env_masks rt backend w n e :
  cuda_is_available rt = true ->
  int rt (Spec.world_size (w_env w)) = Some n -> 1 < n ->
  dist_init_process_group rt backend "env://" None None
    (normalized_env (w_env w)) (w_dist w) = inl e ->
  is_Exception e = true ->
  w_env w !! "MASTER_PORT" = None ->
  init_distributed_env rt backend w =
  (Raise (KeyError "MASTER_PORT"),
   World (normalized_env (w_env w)) (w_dist w)
     (w_trace w ++ normalize_events (w_env w) ++
      [EnvRead "WORLD_SIZE"; InitProcessGroup backend "env://" None None;
       EnvRead "MASTER_ADDR"; EnvRead "MASTER_PORT"])).
Proof.
  intros Hcuda Hn Hlt Hinit Hexc Hp.
  rewrite init_distributed_env_phases by assumption.
  set (w1 := World _ _ _).
  pose proof (attempt_env_init_raises rt backend w1 _ n e
                (normalized_env_world_size (w_env w)) Hn Hlt Hinit) as Ha.
  pose proof (try_except_caught _ report_env _ _ _ Ha Hexc) as Hj.
  fold (join_group rt backend) in Hj.
  rewrite (report_env_without_port (A := unit) e _ (Spec.master_addr (w_env w))) in Hj.
  - rewrite (bind_raise _ _ _ _ _ Hj). subst w1.
    unfold record; cbn [w_env w_dist w_trace].
    now rewrite <- !app_assoc.
  - apply normalized_env_master_addr.
  - subst w1. cbn [w_env record].
    now rewrite normalized_env_other by discriminate.
Qed.

(** [init_distributed_tcp], several processes, the rendezvous raises an
    [Exception]: the URL is logged, then the same exception reaches the
    caller. *)
Lemma init_distributed_tcp_reraises
    rt local_rank machine_rank num_gpus_per_machine num_machines dist_url backend w e :
  cuda_is_available rt = true ->
  1 < num_machines * num_gpus_per_machine ->
  dist_init_process_group rt backend dist_url
    (Some (num_machines * num_gpus_per_machine))
    (Some (machine_rank * num_gpus_per_machine + local_rank))
    (w_env w) (w_dist w) = inl e ->
  is_Exception e = true ->
  init_distributed_tcp rt local_rank machine_rank num_gpus_per_machine
    num_machines dist_url backend w =
  (Raise e,
   World (w_env w) (w_dist w)
     (w_trace w ++
      [InitProcessGroup backend dist_url
         (Some (num_machines * num_gpus_per_machine))
         (Some (machine_rank * num_gpus_per_machine + local_rank));
       LogError ("Dist URL: " ++ dist_url)%string])).
Proof.
  intros Hcuda Hlt Hinit Hexc.
  rewrite init_distributed_tcp_phases by assumption.
  assert (Ha : attempt_tcp rt (num_machines * num_gpus_per_machine)
                 (machine_rank * num_gpus_per_machine + local_rank)
                 dist_url backend w =
               (Raise e,
                record (InitProcessGroup backend dist_url
                          (Some (num_machines * num_gpus_per_machine))
                          (Some (machine_rank * num_gpus_per_machine + local_rank)))
                  w)).
  { unfold attempt_tcp.
    destruct (Z.ltb_spec 1 (num_machines * num_gpus_per_machine)); [|lia].
    apply bind_raise. unfold init_process_group. now rewrite Hinit. }
  pose proof (try_except_caught _ (report_tcp dist_url) _ _ _ Ha Hexc) as Hj.
  rewrite report_tcp_run in Hj.
  rewrite (bind_raise _ _ _ _ _ Hj).
  unfold record; cbn [w_env w_dist w_trace].
  now rewrite <- !app_assoc.
Qed.

(** C3, at the input where the code departs from it.  Two processes are
    requested, [MASTER_PORT] is not set and the rendezvous raises
    [RuntimeExn 7].  The caller of [init_distributed_env] receives
    [KeyError "MASTER_PORT"], raised by the handler itself, and not the
    rendezvous failure; the trace ends with the failed lookup and holds no
    [LogError]. *)
Theorem init_distributed_env_masks_rendezvous_failure :
  init_distributed_env (failing_runtime (RuntimeExn 7)) "nccl" (start portless_env) =
  (Raise (KeyError "MASTER_PORT"),
   World (normalized_env portless_env) None
     [ EnvRead "SLURM_NODELIST"; EnvRead "MASTER_ADDR";
       EnvWrite "MASTER_ADDR" "localhost";
       EnvRead "SLURM_PROCID"; EnvRead "RANK"; EnvWrite "RANK" "0";
       EnvRead "SLURM_NTASKS"; EnvRead "WORLD_SIZE"; EnvWrite "WORLD_SIZE" "2";
       EnvRead "WORLD_SIZE"; InitProcessGroup "nccl" "env://" None None;
       EnvRead "MASTER_ADDR"; EnvRead "MASTER_PORT" ]).
Proof.
  rewrite (init_distributed_env_masks (failing_runtime (RuntimeExn 7)) "nccl"
             (start portless_env) 2 (RuntimeExn 7)); reflexivity.
Qed.

(** C2, where it fails.  Neither operation checks its inputs.  From the
    environment: with only [LOCAL_RANK=1] set, the call returns local rank 1
    while [RANK] resolves to ["0"] and [WORLD_SIZE] to ["1"], so
    [local_rank <= rank] is false.  From explicit parameters: with
    [local_rank = 0], [machine_rank = 2], two devices on each of two machines,
    the call returns after forming a group of world size 4 with rank 4, so
    [rank < world_size] is false. *)
Lemma bootstrap_invariant_counterexample :
  (fst (init_distributed_env reference_runtime default_backend
          (start second_device_env)) = Ok 1 /\
   w_env (snd (init_distributed_env reference_runtime default_backend
                 (start second_device_env))) !! "RANK" = Some "0" /\
   w_env (snd (init_distributed_env reference_runtime default_backend
                 (start second_device_env))) !! "WORLD_SIZE" = Some "1" /\
   int reference_runtime "0" = Some 0 /\ int reference_runtime "1" = Some 1 /\
   ~ Spec.invariant 1 0 1) /\
  (fst (init_distributed_tcp reference_runtime 0 2 2 2 default_dist_url
          default_backend (start ∅)) = Ok 0 /\
   w_trace (snd (init_distributed_tcp reference_runtime 0 2 2 2 default_dist_url
                   default_backend (start ∅))) =
     [InitProcessGroup "nccl" "tcp://127.0.0.1:23456" (Some 4) (Some 4);
      Barrier; SetDevice 0] /\
   ~ Spec.invariant 0 4 4).
Proof.
  split.
  - split; [vm_compute; reflexivity|].
    split; [vm_compute; reflexivity|].
    split; [vm_compute; reflexivity|].
    split; [reflexivity|]. split; [reflexivity|].
    unfold Spec.invariant. lia.
  - split; [vm_compute; reflexivity|].
    split; [vm_compute; reflexivity|].
    unfold Spec.invariant. lia.
Qed.

(** C2, as amended.  For [init_distributed_tcp], when
    [0 <= local_rank < num_gpus_per_machine] and
    [0 <= machine_rank < num_machines], the computed rank and world size
    satisfy [0 <= local_rank <= rank < world_size].  For
    [init_distributed_env], the call passes the resolved values through
    unchanged: when the resolved [LOCAL_RANK], [RANK] and [WORLD_SIZE] spell
    integers that satisfy the invariant, [RANK] and [WORLD_SIZE] hold exactly
    those spellings after the call and any returned local rank is that
    integer, so the invariant holds for what the call resolved. *)
Theorem bootstrap_invariant_on_valid_inputs
    rt backend w (local_rank machine_rank num_gpus_per_machine num_machines : Z)
    (lr r ws : Z) :
  (0 <= local_rank < num_gpus_per_machine ->
   0 <= machine_rank < num_machines ->
   Spec.invariant local_rank
     (tcp_world_rank local_rank machine_rank num_gpus_per_machine)
     (tcp_world_size num_gpus_per_machine num_machines)) /\
  (cuda_is_available rt = true ->
   int rt (Spec.local_rank (w_env w)) = Some lr ->
   int rt (Spec.rank (w_env w)) = Some r ->
   int rt (Spec.world_size (w_env w)) = Some ws ->
   Spec.invariant lr r ws ->
   let out := init_distributed_env rt backend w in
   (exists sr sw,
      w_env (snd out) !! "RANK" = Some sr /\ int rt sr = Some r /\
      w_env (snd out) !! "WORLD_SIZE" = Some sw /\ int rt sw = Some ws) /\
   (forall ret, fst out = Ok ret -> ret = lr /\ Spec.invariant ret r ws)).
Proof.
  split.
  - intros Hl Hm. unfold Spec.invariant, tcp_world_rank, tcp_world_size.
    nia.
  - intros Hcuda Hlr Hr Hws Hinv out. subst out. split.
    + exists (Spec.rank (w_env w)), (Spec.world_size (w_env w)).
      rewrite init_distributed_env_final_env by assumption.
      rewrite normalized_env_rank, normalized_env_world_size. auto.
    + intros ret Hok. apply init_distributed_env_returned in Hok.
      assert (ret = lr) by congruence. subst ret. auto.
Qed.

Lemma bootstrap_invariant_on_valid_inputs_witness :
  Spec.invariant 1 (tcp_world_rank 1 1 2) (tcp_world_size 2 2) /\
  (exists sr sw,
     w_env (snd (init_distributed_env reference_runtime "nccl" (start launcher_env)))
       !! "RANK" = Some sr /\ int reference_runtime sr = Some 2 /\
     w_env (snd (init_distributed_env reference_runtime "nccl" (start launcher_env)))
       !! "WORLD_SIZE" = Some sw /\ int reference_runtime sw = Some 4) /\
  (forall ret,
     fst (init_distributed_env reference_runtime "nccl" (start launcher_env)) = Ok ret ->
     ret = 0 /\ Spec.invariant ret 2 4).
Proof.
  destruct (bootstrap_invariant_on_valid_inputs reference_runtime "nccl"
              (start launcher_env) 1 1 2 2 0 2 4) as [Htcp Henv].
  split.
  - apply Htcp; lia.
  - apply Henv; try reflexivity. unfold Spec.invariant. lia.
Defined.

(** ** Supplementary properties *)

(** X1.  The documented path of [init_distributed_env]: with [MASTER_PORT]
    set, a rendezvous that raises an [Exception] is reported as one log line
    ["Dist URL: <MASTER_ADDR>:<MASTER_PORT>"] with the resolved address and
    the port, after which the same exception reaches the caller; the
    environment holds the three normalised keys and no group is formed. *)
Theorem init_distributed_env_logs_and_reraises rt backend w n e p :
  cuda_is_available rt = true ->
  int rt (Spec.world_size (w_env w)) = Some n -> 1 < n ->
  dist_init_process_group rt backend "env://" None None
    (normalized_env (w_env w)) (w_dist w) = inl e ->
  is_Exception e = true ->
  w_env w !! "MASTER_PORT" = Some p ->
  let out := init_distributed_env rt backend w in
  fst out = Raise e /\
  w_dist (snd out) = w_dist w /\
  w_trace (snd out) =
    (w_trace w ++ normalize_events (w_env w) ++
     [EnvRead "WORLD_SIZE"; InitProcessGroup backend "env://" None None;
      EnvRead "MASTER_ADDR"; EnvRead "MASTER_PORT";
      LogError ("Dist URL: " ++ Spec.master_addr (w_env w) ++ ":" ++ p)%string])%list.
Proof.
  intros Hcuda Hn Hlt Hinit Hexc Hp out. subst out.
  rewrite (init_distributed_env_reraises rt backend w n e p) by assumption.
  repeat split.
Qed.

Lemma init_distributed_env_logs_and_reraises_witness :
  let out :=
    init_distributed_env (failing_runtime (RuntimeExn 7)) "nccl"
      (start launcher_env) in
  fst out = Raise (RuntimeExn 7) /\
  w_dist (snd out) = None /\
  w_trace (snd out) =
    (normalize_events launcher_env ++
     [EnvRead "WORLD_SIZE"; InitProcessGroup "nccl" "env://" None None;
      EnvRead "MASTER_ADDR"; EnvRead "MASTER_PORT";
      LogError "Dist URL: 10.0.0.1:29500"])%list.
Proof.
  apply (init_distributed_env_logs_and_reraises (failing_runtime (RuntimeExn 7))
           "nccl" (start launcher_env) 4 (RuntimeExn 7) "29500");
    reflexivity.
Defined.

(** X2.  [init_distributed_tcp]: a rendezvous that raises an [Exception] is
    reported as one log line ["Dist URL: <dist_url>"], after which the same
    exception reaches the caller; nothing else happens. *)
Theorem init_distributed_tcp_logs_and_reraises
    rt local_rank machine_rank num_gpus_per_machine num_machines dist_url backend w e :
  cuda_is_available rt = true ->
  1 < num_machines * num_gpus_per_machine ->
  dist_init_process_group rt backend dist_url
    (Some (num_machines * num_gpus_per_machine))
    (Some (machine_rank * num_gpus_per_machine + local_rank))
    (w_env w) (w_dist w) = inl e ->
  is_Exception e = true ->
  init_distributed_tcp rt local_rank machine_rank num_gpus_per_machine
    num_machines dist_url backend w =
  (Raise e,
   World (w_env w) (w_dist w)
     (w_trace w ++
      [InitProcessGroup backend dist_url
         (Some (num_machines * num_gpus_per_machine))
         (Some (machine_rank * num_gpus_per_machine + local_rank));
       LogError ("Dist URL: " ++ dist_url)%string])).
Proof. apply init_distributed_tcp_reraises. Qed.

Lemma init_distributed_tcp_logs_and_reraises_witness :
  init_distributed_tcp (failing_runtime (RuntimeExn 7)) 1 1 2 2
    default_dist_url default_backend (start ∅) =
  (Raise (RuntimeExn 7),
   World ∅ None
     [InitProcessGroup "nccl" "tcp://127.0.0.1:23456" (Some 4) (Some 3);
      LogError "Dist URL: tcp://127.0.0.1:23456"]).
Proof.
  apply (init_distributed_tcp_logs_and_reraises (failing_runtime (RuntimeExn 7))
           1 1 2 2 default_dist_url default_backend (start ∅) (RuntimeExn 7));
    reflexivity.
Defined.

(** X3.  With a group formed, [average_across_processes] calls the
    collective sum once and divides its result by the size of the group, as
    [get_world_size] reports it. *)
Theorem average_across_processes_in_group
    (Tensor : Type) all_reduce_sum tensor_idiv (t t1 : Tensor) w g :
  w_dist w = Some g ->
  all_reduce_sum g t = inr t1 ->
  average_across_processes Tensor all_reduce_sum tensor_idiv t w =
  (match tensor_idiv t1 (pg_world_size g) with
   | inl e => Raise e
   | inr t2 => Ok t2
   end,
   record AllReduce w).
Proof.
  intros Hd Hsum.
  unfold average_across_processes, get_world_size, bind, all_reduce, idiv.
  rewrite Hd, Hsum. cbn [w_dist record]. rewrite Hd.
  destruct (tensor_idiv t1 (pg_world_size g)); reflexivity.
Qed.

Lemma average_across_processes_in_group_witness :
  average_across_processes Z (fun _ t => inr (t + 5)) (fun t n => inr (t / n)) 3
    (World ∅ (Some (ProcessGroup 0 2)) []) =
  (Ok 4, World ∅ (Some (ProcessGroup 0 2)) [AllReduce]).
Proof.
  apply (average_across_processes_in_group Z (fun _ t => inr (t + 5))
           (fun t n => inr (t / n)) 3 8
           (World ∅ (Some (ProcessGroup 0 2)) []) (ProcessGroup 0 2));
    reflexivity.
Defined.

(** X4.  A malformed world size reaches the handler although no group
    initialization is attempted: when [WORLD_SIZE] resolves to something
    [int] rejects, the [ValueError] is raised inside the [try].  With
    [MASTER_PORT] set the handler logs address and port and the [ValueError]
    reaches the caller; with [MASTER_PORT] unset the handler's lookup raises
    [KeyError] instead.  In neither case is [init_process_group] called. *)
Theorem malformed_world_size_reaches_handler rt backend w :
  cuda_is_available rt = true ->
  int rt (Spec.world_size (w_env w)) = None ->
  (forall p,
     w_env w !! "MASTER_PORT" = Some p ->
     init_distributed_env rt backend w =
     (Raise (ValueError (Spec.world_size (w_env w))),
      World (normalized_env (w_env w)) (w_dist w)
        (w_trace w ++ normalize_events (w_env w) ++
         [EnvRead "WORLD_SIZE"; EnvRead "MASTER_ADDR"; EnvRead "MASTER_PORT";
          LogError ("Dist URL: " ++ Spec.master_addr (w_env w) ++ ":" ++ p)%string]))) /\
  (w_env w !! "MASTER_PORT" = None ->
   init_distributed_env rt backend w =
   (Raise (KeyError "MASTER_PORT"),
    World (normalized_env (w_env w)) (w_dist w)
      (w_trace w ++ normalize_events (w_env w) ++
       [EnvRead "WORLD_SIZE"; EnvRead "MASTER_ADDR"; EnvRead "MASTER_PORT"]))).
Proof.
  intros Hcuda Hn.
  rewrite init_distributed_env_phases by assumption.
  set (w1 := World _ _ _).
  pose proof (attempt_env_malformed rt backend w1 _
                (normalized_env_world_size (w_env w)) Hn) as Ha.
  pose proof (try_except_caught _ report_env _ _ _ Ha eq_refl) as Hj.
  fold (join_group rt backend) in Hj.
  assert (Haddr : w_env (record (EnvRead "WORLD_SIZE") w1) !! "MASTER_ADDR" =
                  Some (Spec.master_addr (w_env w))).
  { subst w1. cbn [w_env record]. apply normalized_env_master_addr. }
  assert (Hport : w_env (record (EnvRead "WORLD_SIZE") w1) !! "MASTER_PORT" =
                  w_env w !! "MASTER_PORT").
  { subst w1. cbn [w_env record]. now apply normalized_env_other. }
  split.
  - intros p Hp. rewrite Hp in Hport.
    rewrite (report_env_with_port (A := unit) _ _ _ p Haddr Hport) in Hj.
    rewrite (bind_raise _ _ _ _ _ Hj). subst w1.
    unfold record; cbn [w_env w_dist w_trace].
    now rewrite <- !app_assoc.
  - intros Hp. rewrite Hp in Hport.
    rewrite (report_env_without_port (A := unit) _ _ _ Haddr Hport) in Hj.
    rewrite (bind_raise _ _ _ _ _ Hj). subst w1.
    unfold record; cbn [w_env w_dist w_trace].
    now rewrite <- !app_assoc.
Qed.

Lemma malformed_world_size_reaches_handler_witness :
  fst (init_distributed_env reference_runtime "nccl" (start malformed_env)) =
  Raise (KeyError "MASTER_PORT").
Proof.
  destruct (malformed_world_size_reaches_handler reference_runtime "nccl"
              (start malformed_env) eq_refl eq_refl) as [_ Hnone].
  rewrite Hnone; reflexivity.
Defined.

(** * Further properties of the helpers *)

(** ** Reading the effects of a call *)

Lemma effects_of_app {A : Type} (m : M A) w evs :
  w_trace (snd (m w)) = (w_trace w ++ evs)%list -> effects_of m w = evs.
Proof. intros H. unfold effects_of. rewrite H. apply drop_app_length. Qed.

Lemma footprint_effects {A : Type} (P : event -> Prop) (m : M A) w :
  footprint P m ->
  w_env (snd (m w)) = w_env w /\ Forall P (effects_of m w).
Proof.
  intros H. destruct (H w) as (He & evs & Ht & Hf).
  split; [assumption|]. now rewrite (effects_of_app m w evs Ht).
Qed.

(** ** The [try] statements, case by case *)

(** Lines 52-62 of [init_distributed_env]. *)
Lemma join_group_run rt backend w s :
  w_env w !! "WORLD_SIZE" = Some s ->
  join_group rt backend w =
  let w0 := record (EnvRead "WORLD_SIZE") w in
  match int rt s with
  | None => report_env (ValueError s) w0
  | Some n =>
      if 1 <? n then
        let w1 := record (InitProcessGroup backend "env://" None None) w0 in
        match dist_init_process_group rt backend "env://" None None
                (w_env w) (w_dist w) with
        | inl e => if is_Exception e then report_env e w1 else (Raise e, w1)
        | inr g =>
            let w2 := record Barrier (with_dist (Some g) w1) in
            match dist_barrier rt g with
            | Some e => if is_Exception e then report_env e w2 else (Raise e, w2)
            | None => (Ok tt, w2)
            end
        end
      else (Ok tt, w0)
  end.
Proof.
  intros Hs. cbv zeta.
  unfold join_group, try_except, attempt_env, bind at 1, environ_getitem.
  rewrite Hs. unfold bind at 1, py_int.
  destruct (int rt s) as [n|]; cbn [of_option ret raise]; [|reflexivity].
  destruct (1 <? n); [|reflexivity].
  unfold bind, init_process_group. cbn [w_env w_dist record].
  destruct (dist_init_process_group _ _ _ _ _ _ _) as [e|g]; [reflexivity|].
  unfold synchronize. cbn [w_dist with_dist].
  destruct (dist_barrier rt g); reflexivity.
Qed.

(** Lines 85-98 of [init_distributed_tcp]. *)
Lemma tcp_try_run rt world_size world_rank dist_url backend w :
  try_except (attempt_tcp rt world_size world_rank dist_url backend)
    (report_tcp dist_url) w =
  let log := LogError ("Dist URL: " ++ dist_url)%string in
  if 1 <? world_size then
    let w1 := record (InitProcessGroup backend dist_url (Some world_size)
                        (Some world_rank)) w in
    match dist_init_process_group rt backend dist_url (Some world_size)
            (Some world_rank) (w_env w) (w_dist w) with
    | inl e => if is_Exception e then (Raise e, record log w1) else (Raise e, w1)
    | inr g =>
        let w2 := record Barrier (with_dist (Some g) w1) in
        match dist_barrier rt g with
        | Some e => if is_Exception e then (Raise e, record log w2) else (Raise e, w2)
        | None => (Ok tt, w2)
        end
    end
  else
    match w_dist w with
    | Some g =>
        let w2 := record Barrier w in
        match dist_barrier rt g with
        | Some e => if is_Exception e then (Raise e, record log w2) else (Raise e, w2)
        | None => (Ok tt, w2)
        end
    | None => (Ok tt, w)
    end.
Proof.
  cbv zeta. unfold try_except, attempt_tcp.
  destruct (1 <? world_size).
  - unfold bind, init_process_group. cbn [w_env w_dist record].
    destruct (dist_init_process_group _ _ _ _ _ _ _) as [e|g].
    + destruct (is_Exception e); reflexivity.
    + unfold synchronize. cbn [w_dist with_dist].
      destruct (dist_barrier rt g) as [e|]; [|reflexivity].
      destruct (is_Exception e); reflexivity.
  - unfold bind, ret, synchronize.
    destruct (w_dist w) as [g|]; [|reflexivity].
    destruct (dist_barrier rt g) as [e|]; [|reflexivity].
    destruct (is_Exception e); reflexivity.
Qed.

(** ** [init_distributed_tcp] and the environment *)

Lemma footprint_py_assert (P : event -> Prop) cond msg :
  footprint P (py_assert cond msg).
Proof. destruct cond; [apply footprint_ret | apply footprint_raise]. Qed.

Lemma init_distributed_tcp_footprint
    (P : event -> Prop) rt local_rank machine_rank num_gpus_per_machine
    num_machines dist_url backend :
  (forall b u s r, P (InitProcessGroup b u s r)) ->
  P Barrier -> (forall msg, P (LogError msg)) -> (forall d, P (SetDevice d)) ->
  footprint P
    (init_distributed_tcp rt local_rank machine_rank num_gpus_per_machine
       num_machines dist_url backend).
Proof.
  intros Hinit Hbar Hlog Hdev.
  apply footprint_bind; [apply footprint_py_assert|]. intros _. cbv zeta.
  apply footprint_bind.
  - apply footprint_try_except.
    + apply footprint_bind; [|intros _; now apply footprint_synchronize].
      destruct (1 <? _); [now apply footprint_init_process_group
                         | apply footprint_ret].
    + intros e. apply footprint_bind; [now apply footprint_emit|]. intros _.
      apply footprint_raise.
  - intros _. apply footprint_bind; [now apply footprint_set_device|].
    intros _. apply footprint_ret.
Qed.

(** X5.  [init_distributed_tcp] never touches the process environment:
    whatever its arguments, the state it starts from and its outcome, the
    environment after the call is the environment before it, and none of the
    effects of the call is a read or a write of an environment variable.  In
    particular it does not export [MASTER_ADDR], [RANK] or [WORLD_SIZE] the
    way [init_distributed_env] does. *)
Theorem init_distributed_tcp_leaves_environment
    rt local_rank machine_rank num_gpus_per_machine num_machines dist_url backend w :
  w_env (snd (init_distributed_tcp rt local_rank machine_rank
                num_gpus_per_machine num_machines dist_url backend w)) = w_env w /\
  Forall (fun ev => is_env_event ev = false)
    (effects_of (init_distributed_tcp rt local_rank machine_rank
                   num_gpus_per_machine num_machines dist_url backend) w).
Proof.
  apply footprint_effects.
  apply init_distributed_tcp_footprint; intros; reflexivity.
Qed.

(** ** The shape of the effects of [init_distributed_env] *)

Lemma report_env_footprint {A : Type} (P : event -> Prop) e :
  P (EnvRead "MASTER_ADDR") -> P (EnvRead "MASTER_PORT") ->
  (forall msg, P (LogError msg)) ->
  footprint P (@report_env A e).
Proof.
  intros Ha Hp Hl.
  apply footprint_bind; [now apply footprint_environ_getitem|]. intros a.
  apply footprint_bind; [now apply footprint_environ_getitem|]. intros p.
  apply footprint_bind; [now apply footprint_emit|]. intros _.
  apply footprint_raise.
Qed.

Lemma bind_device_footprint (P : event -> Prop) rt :
  P (EnvRead "SLURM_LOCALID") -> P (EnvRead "LOCAL_RANK") ->
  (forall d, P (SetDevice d)) ->
  footprint P (bind_device rt).
Proof.
  intros Hs Hl Hd.
  apply footprint_bind; [now apply footprint_environ_get|]. intros localid.
  apply footprint_bind; [now apply footprint_environ_get|]. intros lr.
  apply footprint_bind; [apply footprint_of_option|]. intros n.
  apply footprint_bind; [now apply footprint_set_device|]. intros _.
  apply footprint_ret.
Qed.

Lemma footprint_after {A : Type} (P : event -> Prop) (m : M A) w0 w pre :
  footprint P m ->
  w_trace w0 = (w_trace w ++ pre)%list ->
  exists tail,
    w_trace (snd (m w0)) = (w_trace w ++ pre ++ tail)%list /\ Forall P tail.
Proof.
  intros Hm Hpre. destruct (Hm w0) as (_ & tail & Ht & Hf).
  exists tail. split; [|assumption].
  rewrite Ht, Hpre. now rewrite <- app_assoc.
Qed.

(** Whether the rendezvous of this call forms a group. *)
Lemma init_distributed_env_shape rt backend w :
  cuda_is_available rt = true ->
  exists tail,
    effects_of (init_distributed_env rt backend) w =
      (normalize_events (w_env w) ++ [EnvRead "WORLD_SIZE"] ++
       rendezvous_events backend (int rt (Spec.world_size (w_env w)))
         (match dist_init_process_group rt backend "env://" None None
                  (normalized_env (w_env w)) (w_dist w) with
          | inr _ => true
          | inl _ => false
          end) ++ tail)%list /\
    Forall (fun ev => is_local_event ev = true) tail.
Proof.
  intros Hcuda.
  set (P := fun ev => is_local_event ev = true).
  assert (Hrep : forall e, footprint P (@report_env unit e))
    by (intros e; now apply report_env_footprint).
  assert (Hdev : footprint P (bind_device rt))
    by (now apply bind_device_footprint).
  set (mid := rendezvous_events _ _ _).
  cut (exists tail,
          w_trace (snd (init_distributed_env rt backend w)) =
            (w_trace w ++ (normalize_events (w_env w) ++ [EnvRead "WORLD_SIZE"] ++
                           mid) ++ tail)%list /\ Forall P tail).
  { intros (tail & Ht & Hf). exists tail. split; [|assumption].
    apply effects_of_app. rewrite Ht. now rewrite <- !app_assoc. }
  subst mid.
  rewrite init_distributed_env_phases by assumption.
  set (w1 := World _ _ _).
  unfold bind at 1.
  rewrite (join_group_run rt backend w1 _ (normalized_env_world_size (w_env w))).
  cbv zeta. subst w1. cbn [w_env w_dist].
  unfold rendezvous_events.
  destruct (int rt (Spec.world_size (w_env w))) as [n|].
  2:{ (* malformed world size *)
      match goal with
      | |- context [report_env ?e ?w0] =>
          destruct (footprint_after P (@report_env unit e) w0 w
                      (normalize_events (w_env w) ++ [EnvRead "WORLD_SIZE"] ++ [])
                      (Hrep e)) as (tail & Ht & Hf);
            [unfold record; cbn [w_trace]; now rewrite <- !app_assoc|];
          destruct (report_env_raises (A := unit) e w0) as (e' & w' & Hr);
          rewrite Hr in *; cbn [snd] in *; now exists tail
      end. }
  destruct (1 <? n).
  2:{ (* one process *)
      match goal with
      | |- context [bind_device rt ?w0] =>
          destruct (footprint_after P (bind_device rt) w0 w
                      (normalize_events (w_env w) ++ [EnvRead "WORLD_SIZE"] ++ [])
                      Hdev) as (tail & Ht & Hf);
            [unfold record; cbn [w_trace]; now rewrite <- !app_assoc|];
          now exists tail
      end. }
  destruct (dist_init_process_group _ _ _ _ _ _ _) as [e|g].
  - (* the rendezvous raised *)
    destruct (is_Exception e).
    + match goal with
      | |- context [report_env e ?w0] =>
          destruct (footprint_after P (@report_env unit e) w0 w
                      (normalize_events (w_env w) ++ [EnvRead "WORLD_SIZE"] ++
                       [InitProcessGroup backend "env://" None None])
                      (Hrep e)) as (tail & Ht & Hf);
            [unfold record; cbn [w_trace]; now rewrite <- !app_assoc|];
          destruct (report_env_raises (A := unit) e w0) as (e' & w' & Hr);
          rewrite Hr in *; cbn [snd] in *; now exists tail
      end.
    + exists []. split; [|constructor]. cbn [snd].
      unfold record; cbn [w_trace]. now rewrite <- !app_assoc, app_nil_r.
  - (* a group is formed *)
    destruct (dist_barrier rt g) as [e|].
    + destruct (is_Exception e).
      * match goal with
        | |- context [report_env e ?w0] =>
            destruct (footprint_after P (@report_env unit e) w0 w
                        (normalize_events (w_env w) ++ [EnvRead "WORLD_SIZE"] ++
                         [InitProcessGroup backend "env://" None None; Barrier])
                        (Hrep e)) as (tail & Ht & Hf);
              [unfold record, with_dist; cbn [w_trace]; now rewrite <- !app_assoc|];
            destruct (report_env_raises (A := unit) e w0) as (e' & w' & Hr);
            rewrite Hr in *; cbn [snd] in *; now exists tail
        end.
      * exists []. split; [|constructor]. cbn [snd].
        unfold record, with_dist; cbn [w_trace].
        now rewrite <- !app_assoc, app_nil_r.
    + match goal with
      | |- context [bind_device rt ?w0] =>
          destruct (footprint_after P (bind_device rt) w0 w
                      (normalize_events (w_env w) ++ [EnvRead "WORLD_SIZE"] ++
                       [InitProcessGroup backend "env://" None None; Barrier])
                      Hdev) as (tail & Ht & Hf);
            [unfold record, with_dist; cbn [w_trace]; now rewrite <- !app_assoc|];
          now exists tail
      end.
Qed.

Lemma normalize_events_env env ev :
  ev ∈ normalize_events env -> is_env_event ev = true.
Proof.
  unfold normalize_events. intros Hin.
  repeat (apply elem_of_cons in Hin as [->|Hin]; [reflexivity|]).
  now apply elem_of_nil in Hin.
Qed.

(** An effect on the collective runtime can only sit in the middle part. *)
Lemma collective_event_in_shape env mid tail ev :
  is_env_event ev = false -> is_local_event ev = false ->
  Forall (fun ev => is_local_event ev = true) tail ->
  ev ∈ (normalize_events env ++ [EnvRead "WORLD_SIZE"] ++ mid ++ tail)%list <->
  ev ∈ mid.
Proof.
  intros Henv Hloc Htail. rewrite Forall_forall in Htail.
  rewrite !elem_of_app, list_elem_of_singleton. split.
  - intros [Hin|[->|[Hin|Hin]]].
    + apply normalize_events_env in Hin. congruence.
    + discriminate.
    + assumption.
    + apply Htail in Hin. congruence.
  - auto.
Qed.

(** X6.  With a device present, [init_distributed_env] calls
    [init_process_group] exactly when [WORLD_SIZE] resolves to an integer
    greater than one, whether or not a process group already exists (it never
    asks [is_initialized] first); every such call passes the caller's backend
    with ["env://"] and neither [world_size] nor [rank].  It runs the barrier
    exactly when that call formed a group: with a world size of at most one,
    and with a failed rendezvous, there is no barrier. *)
Theorem init_distributed_env_rendezvous_iff rt backend w :
  cuda_is_available rt = true ->
  let evs := effects_of (init_distributed_env rt backend) w in
  (InitProcessGroup backend "env://" None None ∈ evs <->
   exists n, int rt (Spec.world_size (w_env w)) = Some n /\ 1 < n) /\
  (forall b u s r,
     InitProcessGroup b u s r ∈ evs ->
     b = backend /\ u = "env://" /\ s = None /\ r = None) /\
  (Barrier ∈ evs <->
   exists n g,
     int rt (Spec.world_size (w_env w)) = Some n /\ 1 < n /\
     dist_init_process_group rt backend "env://" None None
       (normalized_env (w_env w)) (w_dist w) = inr g).
Proof.
  intros Hcuda evs. subst evs.
  destruct (init_distributed_env_shape rt backend w Hcuda) as (tail & -> & Htail).
  split; [|split].
  - rewrite collective_event_in_shape by (reflexivity || assumption).
    unfold rendezvous_events.
    destruct (int rt (Spec.world_size (w_env w))) as [n|].
    + destruct (Z.ltb_spec 1 n).
      * split; [eauto | intros _; apply elem_of_cons; now left].
      * split; [intros Hin; now apply elem_of_nil in Hin|].
        intros (n' & [= <-] & Hlt). lia.
    + split; [intros Hin; now apply elem_of_nil in Hin|].
      intros (n' & Hn & _). discriminate.
  - intros b u s r.
    rewrite collective_event_in_shape by (reflexivity || assumption).
    unfold rendezvous_events.
    destruct (int rt (Spec.world_size (w_env w))) as [n|];
      [|intros Hin; now apply elem_of_nil in Hin].
    destruct (1 <? n); [|intros Hin; now apply elem_of_nil in Hin].
    intros Hin. apply elem_of_cons in Hin as [Heq|Hin].
    + injection Heq as -> -> -> ->. auto.
    + destruct (dist_init_process_group _ _ _ _ _ _ _);
        [now apply elem_of_nil in Hin|].
      apply list_elem_of_singleton in Hin. discriminate.
  - rewrite collective_event_in_shape by (reflexivity || assumption).
    unfold rendezvous_events.
    destruct (int rt (Spec.world_size (w_env w))) as [n|].
    + destruct (Z.ltb_spec 1 n).
      * destruct (dist_init_process_group _ _ _ _ _ _ _) as [e|g].
        -- split.
           ++ intros Hin. apply elem_of_cons in Hin as [Heq|Hin];
                [discriminate | now apply elem_of_nil in Hin].
           ++ intros (n' & g & _ & _ & Hg). discriminate.
        -- split; [eauto|]. intros _. apply elem_of_cons. right.
           now apply list_elem_of_singleton.
      * split; [intros Hin; now apply elem_of_nil in Hin|].
        intros (n' & g & [= <-] & Hlt & _). lia.
    + split; [intros Hin; now apply elem_of_nil in Hin|].
      intros (n' & g & Hn & _). discriminate.
Qed.

Lemma init_distributed_env_rendezvous_iff_witness :
  cuda_is_available reference_runtime = true /\
  (InitProcessGroup "nccl" "env://" None None
     ∈ effects_of (init_distributed_env reference_runtime "nccl")
         (joined_world launcher_env)) /\
  ~ (Barrier ∈ effects_of (init_distributed_env reference_runtime "nccl")
                 (joined_world launcher_env)).
Proof.
  split; [reflexivity|].
  destruct (init_distributed_env_rendezvous_iff reference_runtime "nccl"
              (joined_world launcher_env) eq_refl) as (Hinit & _ & Hbar).
  split.
  - apply Hinit. exists 4. split; [reflexivity | lia].
  - intros Hin. apply Hbar in Hin as (n & g & _ & _ & Hg).
    vm_compute in Hg. discriminate.
Defined.

(** ** The shape of the effects of [init_distributed_tcp] *)

Lemma init_distributed_tcp_shape
    rt local_rank machine_rank num_gpus_per_machine num_machines dist_url backend w :
  cuda_is_available rt = true ->
  exists tail,
    effects_of (init_distributed_tcp rt local_rank machine_rank
                  num_gpus_per_machine num_machines dist_url backend) w =
      (tcp_rendezvous_events backend dist_url
         (num_machines * num_gpus_per_machine)
         (machine_rank * num_gpus_per_machine + local_rank)
         (match dist_init_process_group rt backend dist_url
                  (Some (num_machines * num_gpus_per_machine))
                  (Some (machine_rank * num_gpus_per_machine + local_rank))
                  (w_env w) (w_dist w) with
          | inr _ => true
          | inl _ => false
          end)
         (match w_dist w with Some _ => true | None => false end) ++ tail)%list /\
    Forall (fun ev => is_local_event ev = true) tail.
Proof.
  intros Hcuda.
  set (P := fun ev => is_local_event ev = true).
  set (ws := num_machines * num_gpus_per_machine).
  set (wr := machine_rank * num_gpus_per_machine + local_rank).
  assert (Hdev : footprint P (let* _ := set_device rt local_rank in ret local_rank)).
  { apply footprint_bind; [now apply footprint_set_device|]. intros _.
    apply footprint_ret. }
  set (mid := tcp_rendezvous_events _ _ _ _ _ _).
  cut (exists tail,
          w_trace (snd (init_distributed_tcp rt local_rank machine_rank
                          num_gpus_per_machine num_machines dist_url backend w)) =
            (w_trace w ++ mid ++ tail)%list /\ Forall P tail).
  { intros (tail & Ht & Hf). exists tail. split; [|assumption].
    now apply effects_of_app. }
  subst mid.
  rewrite init_distributed_tcp_phases by assumption. fold ws wr.
  unfold bind at 1. rewrite tcp_try_run. cbv zeta.
  unfold tcp_rendezvous_events.
  assert (Hlog : forall msg, Forall P [LogError msg])
    by (intros msg; now repeat constructor).
  destruct (1 <? ws).
  - destruct (dist_init_process_group _ _ _ _ _ _ _) as [e|g].
    + destruct (is_Exception e); cbn [snd].
      * eexists. split; [|apply Hlog].
        unfold record; cbn [w_trace]. now rewrite <- !app_assoc.
      * exists []. split; [|constructor].
        unfold record; cbn [w_trace]. now rewrite app_nil_r.
    + destruct (dist_barrier rt g) as [e|].
      * destruct (is_Exception e); cbn [snd].
        -- eexists. split; [|apply Hlog].
           unfold record, with_dist; cbn [w_trace]. now rewrite <- !app_assoc.
        -- exists []. split; [|constructor].
           unfold record, with_dist; cbn [w_trace].
           now rewrite <- !app_assoc, app_nil_r.
      * match goal with
        | |- context [bind (set_device rt local_rank) ?k ?w0] =>
            destruct (footprint_after P (bind (set_device rt local_rank) k) w0 w
                        [InitProcessGroup backend dist_url (Some ws) (Some wr);
                         Barrier] Hdev) as (tail & Ht & Hf);
              [unfold record, with_dist; cbn [w_trace]; now rewrite <- !app_assoc|];
            now exists tail
        end.
  - destruct (w_dist w) as [g|].
    + destruct (dist_barrier rt g) as [e|].
      * destruct (is_Exception e); cbn [snd].
        -- eexists. split; [|apply Hlog].
           unfold record; cbn [w_trace]. now rewrite <- !app_assoc.
        -- exists []. split; [|constructor].
           unfold record; cbn [w_trace]. now rewrite app_nil_r.
      * match goal with
        | |- context [bind (set_device rt local_rank) ?k ?w0] =>
            destruct (footprint_after P (bind (set_device rt local_rank) k) w0 w
                        [Barrier] Hdev) as (tail & Ht & Hf);
              [reflexivity|];
            now exists tail
        end.
    + match goal with
      | |- context [bind (set_device rt local_rank) ?k ?w0] =>
          destruct (footprint_after P (bind (set_device rt local_rank) k) w0 w
                      [] Hdev) as (tail & Ht & Hf);
            [now rewrite app_nil_r|];
          now exists tail
      end.
Qed.

Lemma collective_event_in_tcp_shape (mid tail : list event) ev :
  is_local_event ev = false ->
  Forall (fun ev => is_local_event ev = true) tail ->
  ev ∈ (mid ++ tail)%list <-> ev ∈ mid.
Proof.
  intros Hloc Htail. rewrite Forall_forall in Htail.
  rewrite elem_of_app. split; [|auto].
  intros [Hin|Hin]; [assumption|]. apply Htail in Hin. congruence.
Qed.

(** X7.  With a device present, [init_distributed_tcp] calls
    [init_process_group] exactly when
    [num_machines * num_gpus_per_machine] exceeds one, always with the
    caller's backend and URL and the computed world size and rank.  Its
    barrier stands outside that test: it runs when the call formed a group,
    and also, with a world size of at most one, whenever a process group
    existed before the call. *)
Theorem init_distributed_tcp_rendezvous_iff
    rt local_rank machine_rank num_gpus_per_machine num_machines dist_url backend w :
  cuda_is_available rt = true ->
  let world_size := num_machines * num_gpus_per_machine in
  let world_rank := machine_rank * num_gpus_per_machine + local_rank in
  let evs :=
    effects_of (init_distributed_tcp rt local_rank machine_rank
                  num_gpus_per_machine num_machines dist_url backend) w in
  (InitProcessGroup backend dist_url (Some world_size) (Some world_rank) ∈ evs <->
   1 < world_size) /\
  (forall b u s r,
     InitProcessGroup b u s r ∈ evs ->
     b = backend /\ u = dist_url /\ s = Some world_size /\ r = Some world_rank) /\
  (Barrier ∈ evs <->
   (1 < world_size /\
    exists g, dist_init_process_group rt backend dist_url (Some world_size)
                (Some world_rank) (w_env w) (w_dist w) = inr g) \/
   (world_size <= 1 /\ exists g, w_dist w = Some g)).
Proof.
  intros Hcuda ws wr evs. subst evs.
  destruct (init_distributed_tcp_shape rt local_rank machine_rank
              num_gpus_per_machine num_machines dist_url backend w Hcuda)
    as (tail & -> & Htail).
  fold ws wr. unfold tcp_rendezvous_events.
  split; [|split].
  - rewrite collective_event_in_tcp_shape by (reflexivity || assumption).
    destruct (Z.ltb_spec 1 ws).
    + split; [auto | intros _; apply elem_of_cons; now left].
    + split; [|lia]. intros Hin.
      destruct (w_dist w); [|now apply elem_of_nil in Hin].
      apply list_elem_of_singleton in Hin. discriminate.
  - intros b u s r.
    rewrite collective_event_in_tcp_shape by (reflexivity || assumption).
    destruct (1 <? ws).
    + intros Hin. apply elem_of_cons in Hin as [Heq|Hin].
      * injection Heq as -> -> -> ->. auto.
      * destruct (dist_init_process_group _ _ _ _ _ _ _);
          [now apply elem_of_nil in Hin|].
        apply list_elem_of_singleton in Hin. discriminate.
    + intros Hin. destruct (w_dist w); [|now apply elem_of_nil in Hin].
      apply list_elem_of_singleton in Hin. discriminate.
  - rewrite collective_event_in_tcp_shape by (reflexivity || assumption).
    destruct (Z.ltb_spec 1 ws).
    + destruct (dist_init_process_group _ _ _ _ _ _ _) as [e|g].
      * split.
        -- intros Hin. apply elem_of_cons in Hin as [Heq|Hin];
             [discriminate | now apply elem_of_nil in Hin].
        -- intros [(_ & g & Hg)|(Hle & _)]; [discriminate | lia].
      * split; [eauto|]. intros _. apply elem_of_cons. right.
        now apply list_elem_of_singleton.
    + destruct (w_dist w) as [g|].
      * split; [eauto|]. intros _. now apply list_elem_of_singleton.
      * split; [intros Hin; now apply elem_of_nil in Hin|].
        intros [(Hlt & _)|(_ & g & Hg)]; [lia | discriminate].
Qed.

Lemma init_distributed_tcp_rendezvous_iff_witness :
  cuda_is_available reference_runtime = true /\
  effects_of (init_distributed_tcp reference_runtime 0 0 1 1 default_dist_url
                default_backend) (joined_world ∅) = [Barrier; SetDevice 0] /\
  Barrier ∈ effects_of (init_distributed_tcp reference_runtime 0 0 1 1
                          default_dist_url default_backend) (joined_world ∅).
Proof.
  split; [reflexivity|]. split; [reflexivity|].
  apply (init_distributed_tcp_rendezvous_iff reference_runtime 0 0 1 1
           default_dist_url default_backend (joined_world ∅) eq_refl).
  right. split; [lia | eauto].
Defined.

(** ** Initialization followed by the queries *)

Lemma set_device_then_return_run rt (local_rank : Z) w :
  (let* _ := set_device rt local_rank in ret local_rank) w =
  (match cuda_set_device rt local_rank with
   | Some e => Raise e
   | None => Ok local_rank
   end,
   record (SetDevice local_rank) w).
Proof.
  unfold bind, set_device. destruct (cuda_set_device rt local_rank); reflexivity.
Qed.

(** A call with a world size of at most one leaves the default group as it
    found it, whatever its outcome. *)
Lemma init_distributed_env_single_dist rt backend w n :
  int rt (Spec.world_size (w_env w)) = Some n -> n <= 1 ->
  w_dist (snd (init_distributed_env rt backend w)) = w_dist w.
Proof.
  intros Hn Hle. destruct (cuda_is_available rt) eqn:Hcuda.
  - rewrite (init_distributed_env_single rt backend w n) by assumption.
    now rewrite bind_device_dist.
  - now rewrite init_distributed_env_no_device.
Qed.

Lemma init_distributed_tcp_single_dist
    rt local_rank machine_rank num_gpus_per_machine num_machines dist_url backend w :
  num_machines * num_gpus_per_machine <= 1 ->
  w_dist (snd (init_distributed_tcp rt local_rank machine_rank
                 num_gpus_per_machine num_machines dist_url backend w)) = w_dist w.
Proof.
  intros Hle. destruct (cuda_is_available rt) eqn:Hcuda.
  2:{ now rewrite init_distributed_tcp_no_device. }
  rewrite init_distributed_tcp_phases by assumption.
  unfold bind at 1. rewrite tcp_try_run. cbv zeta.
  destruct (Z.ltb_spec 1 (num_machines * num_gpus_per_machine)); [lia|].
  destruct (w_dist w) as [g|] eqn:Hd.
  - destruct (dist_barrier rt g) as [e|].
    + destruct (is_Exception e); cbn [snd w_dist record]; assumption.
    + rewrite set_device_then_return_run. cbn [snd w_dist record]. assumption.
  - rewrite set_device_then_return_run. cbn [snd w_dist record]. assumption.
Qed.

(** X8.  Initialization with a world size of at most one never forms,
    replaces or removes a process group, whatever its outcome: this holds for
    [init_distributed_env] when [WORLD_SIZE] resolves to an integer of at
    most one and for [init_distributed_tcp] when
    [num_machines * num_gpus_per_machine] is at most one.  In a process
    without a group the queries after the call therefore answer rank 0,
    world size 1 and master, whatever [RANK] or [machine_rank] say. *)
Theorem single_process_init_keeps_group_state
    rt backend w n local_rank machine_rank num_gpus_per_machine num_machines dist_url :
  (int rt (Spec.world_size (w_env w)) = Some n -> n <= 1 ->
   let w' := snd (init_distributed_env rt backend w) in
   w_dist w' = w_dist w /\
   (w_dist w = None ->
    get_rank w' = 0 /\ get_world_size w' = 1 /\ is_master_process w' = true)) /\
  (num_machines * num_gpus_per_machine <= 1 ->
   let w' := snd (init_distributed_tcp rt local_rank machine_rank
                    num_gpus_per_machine num_machines dist_url backend w) in
   w_dist w' = w_dist w /\
   (w_dist w = None ->
    get_rank w' = 0 /\ get_world_size w' = 1 /\ is_master_process w' = true)).
Proof.
  split.
  - intros Hn Hle w'. subst w'.
    pose proof (init_distributed_env_single_dist rt backend w n Hn Hle) as Hd.
    split; [assumption|]. intros Hnone.
    unfold is_master_process, get_rank, get_world_size.
    rewrite Hd, Hnone. repeat split.
  - intros Hle w'. subst w'.
    pose proof (init_distributed_tcp_single_dist rt local_rank machine_rank
                  num_gpus_per_machine num_machines dist_url backend w Hle) as Hd.
    split; [assumption|]. intros Hnone.
    unfold is_master_process, get_rank, get_world_size.
    rewrite Hd, Hnone. repeat split.
Qed.

Lemma single_process_init_keeps_group_state_witness :
  stray_rank_env !! "RANK" = Some "5" /\
  fst (init_distributed_env reference_runtime "nccl" (start stray_rank_env)) = Ok 0 /\
  get_rank (snd (init_distributed_env reference_runtime "nccl"
                   (start stray_rank_env))) = 0 /\
  is_master_process (snd (init_distributed_tcp reference_runtime 0 3 1 1
                            default_dist_url "nccl" (start ∅))) = true.
Proof.
  split; [reflexivity|]. split; [vm_compute; reflexivity|].
  destruct (single_process_init_keeps_group_state reference_runtime "nccl"
              (start stray_rank_env) 1 0 3 1 1 default_dist_url) as [Henv _].
  destruct (single_process_init_keeps_group_state reference_runtime "nccl"
              (start ∅) 1 0 3 1 1 default_dist_url) as [_ Htcp].
  split.
  - apply Henv; [reflexivity | lia | reflexivity].
  - apply Htcp; [lia | reflexivity].
Defined.

(** A returning [init_distributed_tcp] with a world size above one has formed
    a group, which is the default group from then on. *)
Lemma init_distributed_tcp_formed
    rt local_rank machine_rank num_gpus_per_machine num_machines dist_url backend
    w ret :
  fst (init_distributed_tcp rt local_rank machine_rank num_gpus_per_machine
         num_machines dist_url backend w) = Ok ret ->
  1 < num_machines * num_gpus_per_machine ->
  exists g,
    dist_init_process_group rt backend dist_url
      (Some (num_machines * num_gpus_per_machine))
      (Some (machine_rank * num_gpus_per_machine + local_rank))
      (w_env w) (w_dist w) = inr g /\
    w_dist (snd (init_distributed_tcp rt local_rank machine_rank
                   num_gpus_per_machine num_machines dist_url backend w)) = Some g.
Proof.
  intros Hok Hlt. destruct (cuda_is_available rt) eqn:Hcuda.
  2:{ rewrite init_distributed_tcp_no_device in Hok by assumption. discriminate. }
  revert Hok. rewrite init_distributed_tcp_phases by assumption.
  unfold bind at 1 3. rewrite tcp_try_run. cbv zeta.
  destruct (Z.ltb_spec 1 (num_machines * num_gpus_per_machine)); [|lia].
  destruct (dist_init_process_group _ _ _ _ _ _ _) as [e|g].
  - destruct (is_Exception e); discriminate.
  - destruct (dist_barrier rt g) as [e|].
    + destruct (is_Exception e); discriminate.
    + rewrite set_device_then_return_run. intros _. now exists g.
Qed.

Lemma reference_runtime_explicit_contract :
  explicit_rendezvous_contract reference_runtime.
Proof.
  intros backend init_method size rank env cur g.
  cbn [reference_runtime dist_init_process_group]. unfold reference_init.
  destruct cur; [discriminate|]. intros [= <-]. split; reflexivity.
Qed.

(** X9.  After [init_distributed_tcp] has returned with a world size above
    one, under the runtime's contract for explicit parameters, the queries
    report what the call computed: [get_world_size] is
    [num_machines * num_gpus_per_machine], [get_rank] is
    [machine_rank * num_gpus_per_machine + local_rank], and
    [is_master_process] holds exactly when that rank is zero. *)
Theorem queries_after_init_distributed_tcp
    rt local_rank machine_rank num_gpus_per_machine num_machines dist_url backend
    w ret :
  explicit_rendezvous_contract rt ->
  1 < num_machines * num_gpus_per_machine ->
  fst (init_distributed_tcp rt local_rank machine_rank num_gpus_per_machine
         num_machines dist_url backend w) = Ok ret ->
  let w' := snd (init_distributed_tcp rt local_rank machine_rank
                   num_gpus_per_machine num_machines dist_url backend w) in
  get_world_size w' = num_machines * num_gpus_per_machine /\
  get_rank w' = machine_rank * num_gpus_per_machine + local_rank /\
  (is_master_process w' = true <->
   machine_rank * num_gpus_per_machine + local_rank = 0).
Proof.
  intros Hcontract Hlt Hok w'. subst w'.
  destruct (init_distributed_tcp_formed _ _ _ _ _ _ _ _ _ Hok Hlt) as (g & Hg & Hd).
  destruct (Hcontract _ _ _ _ _ _ _ Hg) as [Hrank Hsize].
  unfold is_master_process, get_rank, get_world_size. rewrite Hd, Hrank, Hsize.
  split; [reflexivity|]. split; [reflexivity|]. apply Z.eqb_eq.
Qed.

Lemma queries_after_init_distributed_tcp_witness :
  explicit_rendezvous_contract reference_runtime /\
  get_world_size (snd (init_distributed_tcp reference_runtime 1 1 2 2
                         default_dist_url default_backend (start ∅))) = 4 /\
  get_rank (snd (init_distributed_tcp reference_runtime 1 1 2 2
                   default_dist_url default_backend (start ∅))) = 3.
Proof.
  split; [apply reference_runtime_explicit_contract|].
  destruct (queries_after_init_distributed_tcp reference_runtime 1 1 2 2
              default_dist_url default_backend (start ∅) 1
              reference_runtime_explicit_contract eq_refl eq_refl)
    as (Hs & Hr & _).
  split; [exact Hs | exact Hr].
Defined.

(** X10.  After [init_distributed_env] has returned with a world size above
    one, under the runtime's [env://] contract, the queries report the
    resolved environment: [get_world_size] is the integer [WORLD_SIZE]
    resolved to and [get_rank] is the integer spelled by the resolved [RANK]
    (its override, else [SLURM_PROCID], else ["0"]). *)
Theorem queries_after_init_distributed_env rt backend w n ret :
  env_rendezvous_contract rt ->
  int rt (Spec.world_size (w_env w)) = Some n -> 1 < n ->
  fst (init_distributed_env rt backend w) = Ok ret ->
  let w' := snd (init_distributed_env rt backend w) in
  get_world_size w' = n /\
  int rt (Spec.rank (w_env w)) = Some (get_rank w') /\
  (is_master_process w' = true <-> int rt (Spec.rank (w_env w)) = Some 0).
Proof.
  intros Hcontract Hn Hlt Hok w'. subst w'.
  destruct (init_distributed_env_formed rt backend w n ret Hok Hn Hlt)
    as (g & Hg & Hd).
  destruct (Hcontract _ _ _ _ Hg) as [(r & Hr & Hir) (s & Hs & His)].
  rewrite normalized_env_rank in Hr. injection Hr as <-.
  rewrite normalized_env_world_size in Hs. injection Hs as <-.
  unfold is_master_process, get_rank, get_world_size. rewrite Hd.
  split; [congruence|]. split; [assumption|].
  rewrite Hir, Z.eqb_eq. split; congruence.
Qed.

Lemma queries_after_init_distributed_env_witness :
  env_rendezvous_contract reference_runtime /\
  get_world_size (snd (init_distributed_env reference_runtime "nccl"
                         (start slurm_env))) = 4 /\
  int reference_runtime "3" = Some (get_rank (snd (init_distributed_env reference_runtime "nccl"
                                   (start slurm_env)))).
Proof.
  split; [apply reference_runtime_contract|].
  destruct (queries_after_init_distributed_env reference_runtime "nccl"
              (start slurm_env) 4 1 reference_runtime_contract eq_refl eq_refl)
    as (Hs & Hr & _).
  - vm_compute. reflexivity.
  - split; [exact Hs | exact Hr].
Defined.

(** ** Failures after the group is formed *)

Lemma report_env_dist {A : Type} e w :
  w_dist (snd (@report_env A e w)) = w_dist w.
Proof.
  unfold report_env, bind, environ_getitem.
  destruct (w_env w !! "MASTER_ADDR"); [|reflexivity].
  cbn [w_env record].
  destruct (w_env w !! "MASTER_PORT"); reflexivity.
Qed.

(** With the group formed and the barrier passed, what remains is the device
    binding. *)
Lemma init_distributed_env_group rt backend w n g :
  cuda_is_available rt = true ->
  int rt (Spec.world_size (w_env w)) = Some n -> 1 < n ->
  dist_init_process_group rt backend "env://" None None
    (normalized_env (w_env w)) (w_dist w) = inr g ->
  dist_barrier rt g = None ->
  init_distributed_env rt backend w =
  bind_device rt
    (World (normalized_env (w_env w)) (Some g)
       (w_trace w ++ normalize_events (w_env w) ++
        [EnvRead "WORLD_SIZE"; InitProcessGroup backend "env://" None None;
         Barrier])).
Proof.
  intros Hcuda Hn Hlt Hg Hbar.
  rewrite init_distributed_env_phases by assumption.
  set (w1 := World _ _ _). unfold bind at 1.
  rewrite (join_group_run rt backend w1 _ (normalized_env_world_size (w_env w))).
  cbv zeta. rewrite Hn. destruct (Z.ltb_spec 1 n); [|lia].
  subst w1. cbn [w_env w_dist]. rewrite Hg, Hbar.
  unfold record, with_dist; cbn [w_env w_dist w_trace].
  now rewrite <- !app_assoc.
Qed.

(** X11.  Once [init_process_group] has formed a group,
    [init_distributed_env] leaves that group in place whatever happens next:
    a failing barrier, a local rank that is not an integer, a device that
    cannot be bound.  The last two are outside the [try] statement: with the
    barrier passed, the outcome is [ValueError] for a malformed local rank
    and the device error for a failed binding, and the call logs nothing. *)
Theorem late_failure_keeps_group rt backend w n g :
  cuda_is_available rt = true ->
  int rt (Spec.world_size (w_env w)) = Some n -> 1 < n ->
  dist_init_process_group rt backend "env://" None None
    (normalized_env (w_env w)) (w_dist w) = inr g ->
  w_dist (snd (init_distributed_env rt backend w)) = Some g /\
  (dist_barrier rt g = None ->
   fst (init_distributed_env rt backend w) =
     match int rt (Spec.local_rank (w_env w)) with
     | None => Raise (ValueError (Spec.local_rank (w_env w)))
     | Some d =>
         match cuda_set_device rt d with Some e => Raise e | None => Ok d end
     end /\
   Forall (fun ev => is_log_error ev = false)
     (effects_of (init_distributed_env rt backend) w)).
Proof.
  intros Hcuda Hn Hlt Hg. split.
  - rewrite init_distributed_env_phases by assumption.
    set (w1 := World _ _ _). unfold bind at 1.
    rewrite (join_group_run rt backend w1 _ (normalized_env_world_size (w_env w))).
    cbv zeta. rewrite Hn. destruct (Z.ltb_spec 1 n); [|lia].
    subst w1. cbn [w_env w_dist]. rewrite Hg.
    destruct (dist_barrier rt g) as [e|].
    + destruct (is_Exception e); [|reflexivity].
      match goal with
      | |- context [report_env e ?w0] =>
          pose proof (report_env_dist (A := unit) e w0) as Hd;
          destruct (report_env_raises (A := unit) e w0) as (e' & w' & Hr)
      end.
      rewrite Hr in *. exact Hd.
    + now rewrite bind_device_dist.
  - intros Hbar.
    rewrite (init_distributed_env_group rt backend w n g) by assumption.
    set (w2 := World _ _ _). split.
    + rewrite bind_device_outcome. subst w2. cbn [w_env].
      now rewrite local_rank_normalized.
    + assert (Hdev : footprint (fun ev => is_log_error ev = false) (bind_device rt))
        by (now apply bind_device_footprint).
      destruct (footprint_after _ (bind_device rt) w2 w
                  (normalize_events (w_env w) ++
                   [EnvRead "WORLD_SIZE";
                    InitProcessGroup backend "env://" None None; Barrier])
                  Hdev eq_refl) as (tail & Ht & Hf).
      assert (Heff : effects_of (init_distributed_env rt backend) w =
                     ((normalize_events (w_env w) ++
                       [EnvRead "WORLD_SIZE";
                        InitProcessGroup backend "env://" None None; Barrier]) ++
                      tail)%list).
      { apply effects_of_app.
        rewrite (init_distributed_env_group rt backend w n g) by assumption.
        exact Ht. }
      rewrite Heff. apply Forall_app. split; [|assumption].
      apply Forall_app. split; [|now repeat constructor].
      apply Forall_forall. intros ev Hin.
      apply normalize_events_env in Hin. now destruct ev.
Qed.

Lemma late_failure_keeps_group_witness :
  cuda_is_available reference_runtime = true /\
  fst (init_distributed_env reference_runtime "nccl" (start bad_local_rank_env))
    = Raise (ValueError "gpu0") /\
  w_dist (snd (init_distributed_env reference_runtime "nccl"
                 (start bad_local_rank_env))) = Some (ProcessGroup 2 4).
Proof.
  split; [reflexivity|].
  destruct (late_failure_keeps_group reference_runtime "nccl"
              (start bad_local_rank_env) 4 (ProcessGroup 2 4)
              eq_refl eq_refl eq_refl eq_refl) as [Hd Hrest].
  destruct (Hrest eq_refl) as [Hout _].
  split; [rewrite Hout; reflexivity | exact Hd].
Defined.

(** ** Failures that are not [Exception]s *)

(** X12.  The handlers of both initialization operations catch [Exception]
    only.  When the rendezvous is ended by something that is not an
    [Exception] (a keyboard interrupt, a system exit), it reaches the caller
    as it is, nothing is logged and [MASTER_PORT] is not looked up: the call
    of [init_process_group] is the last effect. *)
Theorem non_exception_propagates_unlogged
    rt backend w e n local_rank machine_rank num_gpus_per_machine num_machines
    dist_url :
  cuda_is_available rt = true ->
  is_Exception e = false ->
  (int rt (Spec.world_size (w_env w)) = Some n -> 1 < n ->
   dist_init_process_group rt backend "env://" None None
     (normalized_env (w_env w)) (w_dist w) = inl e ->
   init_distributed_env rt backend w =
   (Raise e,
    World (normalized_env (w_env w)) (w_dist w)
      (w_trace w ++ normalize_events (w_env w) ++
       [EnvRead "WORLD_SIZE"; InitProcessGroup backend "env://" None None]))) /\
  (1 < num_machines * num_gpus_per_machine ->
   dist_init_process_group rt backend dist_url
     (Some (num_machines * num_gpus_per_machine))
     (Some (machine_rank * num_gpus_per_machine + local_rank))
     (w_env w) (w_dist w) = inl e ->
   init_distributed_tcp rt local_rank machine_rank num_gpus_per_machine
     num_machines dist_url backend w =
   (Raise e,
    World (w_env w) (w_dist w)
      (w_trace w ++
       [InitProcessGroup backend dist_url
          (Some (num_machines * num_gpus_per_machine))
          (Some (machine_rank * num_gpus_per_machine + local_rank))]))).
Proof.
  intros Hcuda Hexc. split.
  - intros Hn Hlt Hinit.
    rewrite init_distributed_env_phases by assumption.
    set (w1 := World _ _ _). unfold bind at 1.
    rewrite (join_group_run rt backend w1 _ (normalized_env_world_size (w_env w))).
    cbv zeta. rewrite Hn. destruct (Z.ltb_spec 1 n); [|lia].
    subst w1. cbn [w_env w_dist]. rewrite Hinit, Hexc.
    unfold record; cbn [w_env w_dist w_trace].
    now rewrite <- !app_assoc.
  - intros Hlt Hinit.
    rewrite init_distributed_tcp_phases by assumption.
    unfold bind at 1. rewrite tcp_try_run. cbv zeta.
    destruct (Z.ltb_spec 1 (num_machines * num_gpus_per_machine)); [|lia].
    rewrite Hinit, Hexc. reflexivity.
Qed.

Lemma non_exception_propagates_unlogged_witness :
  cuda_is_available interrupted_runtime = true /\
  is_Exception (BaseExn 0) = false /\
  fst (init_distributed_env interrupted_runtime "nccl" (start portless_env))
    = Raise (BaseExn 0) /\
  fst (init_distributed_tcp interrupted_runtime 1 1 2 2 default_dist_url "nccl"
         (start ∅)) = Raise (BaseExn 0).
Proof.
  split; [reflexivity|]. split; [reflexivity|].
  destruct (non_exception_propagates_unlogged interrupted_runtime "nccl"
              (start portless_env) (BaseExn 0) 2 1 1 2 2 default_dist_url
              eq_refl eq_refl) as [Henv _].
  destruct (non_exception_propagates_unlogged interrupted_runtime "nccl"
              (start ∅) (BaseExn 0) 2 1 1 2 2 default_dist_url
              eq_refl eq_refl) as [_ Htcp].
  split.
  - rewrite Henv; reflexivity.
  - rewrite Htcp; reflexivity.
Defined.

(** ** Calling [init_distributed_env] again *)

Lemma master_addr_normalized env :
  Spec.master_addr (normalized_env env) = Spec.master_addr env.
Proof. unfold Spec.master_addr at 1. now rewrite normalized_env_master_addr. Qed.

Lemma rank_normalized env : Spec.rank (normalized_env env) = Spec.rank env.
Proof.
  unfold Spec.rank at 1, Spec.fallback_chain. now rewrite normalized_env_rank.
Qed.

Lemma world_size_normalized env :
  Spec.world_size (normalized_env env) = Spec.world_size env.
Proof.
  unfold Spec.world_size at 1, Spec.fallback_chain.
  now rewrite normalized_env_world_size.
Qed.

(** Normalising a normalised environment changes nothing. *)
Lemma normalized_env_idempotent env :
  normalized_env (normalized_env env) = normalized_env env.
Proof.
  unfold normalized_env at 1.
  rewrite master_addr_normalized, rank_normalized, world_size_normalized.
  rewrite (insert_id (normalized_env env) "MASTER_ADDR")
    by apply normalized_env_master_addr.
  rewrite (insert_id (normalized_env env) "RANK") by apply normalized_env_rank.
  apply insert_id, normalized_env_world_size.
Qed.

(** X13.  The environment normalisation of [init_distributed_env] is
    idempotent.  Calling the function a second time, whatever the outcome of
    either call and whatever the backends, leaves the environment exactly as
    the first call left it; every write of the second call stores the value
    the key already holds; and the second call resolves the same local
    rank. *)
Theorem init_distributed_env_twice rt backend1 backend2 w :
  let w1 := snd (init_distributed_env rt backend1 w) in
  let w2 := snd (init_distributed_env rt backend2 w1) in
  w_env w2 = w_env w1 /\
  (forall k v,
     EnvWrite k v ∈ effects_of (init_distributed_env rt backend2) w1 ->
     w_env w1 !! k = Some v) /\
  Spec.local_rank (w_env w1) = Spec.local_rank (w_env w).
Proof.
  intros w1 w2. subst w2.
  destruct (cuda_is_available rt) eqn:Hcuda.
  - assert (H1 : w_env w1 = normalized_env (w_env w))
      by (subst w1; now apply init_distributed_env_final_env).
    split; [|split].
    + rewrite init_distributed_env_final_env by assumption.
      rewrite H1. apply normalized_env_idempotent.
    + intros k v Hin.
      destruct (init_distributed_env_effects rt backend2 w1 Hcuda)
        as (evs & Ht & Hf).
      rewrite (effects_of_app _ _ _ Ht) in Hin.
      apply elem_of_app in Hin as [Hin|Hin].
      * unfold normalize_events in Hin.
        rewrite H1, master_addr_normalized, rank_normalized,
          world_size_normalized in Hin.
        rewrite H1.
        repeat (apply elem_of_cons in Hin as [Heq|Hin];
                [first [discriminate | injection Heq as -> ->]|]);
          [apply normalized_env_master_addr | apply normalized_env_rank
           | apply normalized_env_world_size | now apply elem_of_nil in Hin].
      * rewrite Forall_forall in Hf. apply Hf in Hin. discriminate.
    + rewrite H1. apply local_rank_normalized.
  - subst w1. rewrite !init_distributed_env_no_device by assumption.
    cbn [snd]. split; [reflexivity|]. split; [|reflexivity].
    intros k v Hin. unfold effects_of in Hin.
    rewrite init_distributed_env_no_device in Hin by assumption.
    cbn [snd] in Hin. rewrite drop_all in Hin. now apply elem_of_nil in Hin.
Qed.

(** ** The master address taken from the node list *)

Lemma last_comma_entry_no_comma s :
  Spec.has_comma (Spec.last_comma_entry s) = false.
Proof.
  induction s as [|c r IH]; [reflexivity|].
  cbn [Spec.last_comma_entry].
  destruct (Spec.has_comma (String c r)) eqn:Hc; assumption.
Qed.

Lemma last_comma_entry_suffix s :
  exists p,
    s = (p ++ Spec.last_comma_entry s)%string /\
    (p = "" \/ exists q, p = (q ++ ",")%string).
Proof.
  induction s as [|c r IH].
  - exists "". split; [reflexivity | now left].
  - cbn [Spec.last_comma_entry].
    destruct (Spec.has_comma (String c r)) eqn:Hc.
    + destruct IH as (p & Hr & Hp).
      exists (String c p). split.
      * change (String c r = String c (p ++ Spec.last_comma_entry r)%string).
        f_equal. exact Hr.
      * right. destruct Hp as [->|(q & ->)].
        -- exists "". change (r = Spec.last_comma_entry r) in Hr.
           cbn [Spec.has_comma] in Hc.
           rewrite Hr, last_comma_entry_no_comma, orb_false_r in Hc.
           apply Ascii.eqb_eq in Hc. now subst c.
        -- now exists (String c q).
    + exists "". split; [reflexivity | now left].
Qed.

(** X14.  When [MASTER_ADDR] is not set and [SLURM_NODELIST] is, the master
    address [init_distributed_env] exports is the part of the node list after
    its last comma (the whole list when it has none): it contains no comma,
    and the node list is that address preceded by nothing or by a prefix
    ending in a comma.  The list is cut at commas only; nothing else of its
    syntax is interpreted. *)
Theorem master_addr_from_nodelist rt backend w nodelist :
  cuda_is_available rt = true ->
  w_env w !! "MASTER_ADDR" = None ->
  w_env w !! "SLURM_NODELIST" = Some nodelist ->
  exists addr prefix,
    w_env (snd (init_distributed_env rt backend w)) !! "MASTER_ADDR" = Some addr /\
    item_last (split "," nodelist) = Some addr /\
    nodelist = (prefix ++ addr)%string /\
    Spec.has_comma addr = false /\
    (prefix = "" \/ exists q, prefix = (q ++ ",")%string).
Proof.
  intros Hcuda Haddr Hlist.
  destruct (last_comma_entry_suffix nodelist) as (p & Hp & Hq).
  exists (Spec.last_comma_entry nodelist), p.
  split; [|split; [apply item_last_split|split; [exact Hp|split]]].
  - rewrite init_distributed_env_final_env by assumption.
    rewrite normalized_env_master_addr. unfold Spec.master_addr.
    now rewrite Haddr, Hlist.
  - apply last_comma_entry_no_comma.
  - exact Hq.
Qed.

Lemma master_addr_from_nodelist_witness :
  cuda_is_available reference_runtime = true /\
  nodelist_env !! "MASTER_ADDR" = None /\
  nodelist_env !! "SLURM_NODELIST" = Some "gpu-a,gpu-b,gpu-c" /\
  exists addr prefix,
    w_env (snd (init_distributed_env reference_runtime "nccl" (start nodelist_env)))
      !! "MASTER_ADDR" = Some addr /\
    item_last (split "," "gpu-a,gpu-b,gpu-c") = Some addr /\
    "gpu-a,gpu-b,gpu-c" = (prefix ++ addr)%string /\
    Spec.has_comma addr = false /\
    (prefix = "" \/ exists q, prefix = (q ++ ",")%string).
Proof.
  split; [reflexivity|]. split; [reflexivity|]. split; [reflexivity|].
  apply (master_addr_from_nodelist reference_runtime "nccl" (start nodelist_env)
           "gpu-a,gpu-b,gpu-c"); reflexivity.
Defined.

(** ** What [init_distributed_tcp] returns *)

(** X15.  [init_distributed_tcp] returns its [local_rank] argument and
    nothing else: a returned value is the argument itself, a device is
    present, binding that device succeeded and was the last effect of the
    call; the argument is not compared with [num_gpus_per_machine].  In a
    process without a group and with a world size of at most one, binding the
    device is all the call does. *)
Theorem init_distributed_tcp_returns_local_rank
    rt local_rank machine_rank num_gpus_per_machine num_machines dist_url backend w :
  let call :=
    init_distributed_tcp rt local_rank machine_rank num_gpus_per_machine
      num_machines dist_url backend in
  (forall r,
     fst (call w) = Ok r ->
     r = local_rank /\
     cuda_is_available rt = true /\
     cuda_set_device rt local_rank = None /\
     exists evs, effects_of call w = (evs ++ [SetDevice local_rank])%list) /\
  (cuda_is_available rt = true ->
   num_machines * num_gpus_per_machine <= 1 ->
   w_dist w = None ->
   cuda_set_device rt local_rank = None ->
   call w = (Ok local_rank, record (SetDevice local_rank) w)).
Proof.
  intros call. subst call. split.
  - intros r Hok.
    destruct (cuda_is_available rt) eqn:Hcuda.
    2:{ rewrite init_distributed_tcp_no_device in Hok by assumption.
        discriminate. }
    assert (Hrun : exists w0 pre,
               init_distributed_tcp rt local_rank machine_rank
                 num_gpus_per_machine num_machines dist_url backend w =
               (let* _ := set_device rt local_rank in ret local_rank) w0 /\
               w_trace w0 = (w_trace w ++ pre)%list).
    { revert Hok. rewrite init_distributed_tcp_phases by assumption.
      unfold bind at 1 3. rewrite tcp_try_run. cbv zeta.
      destruct (1 <? num_machines * num_gpus_per_machine).
      - destruct (dist_init_process_group _ _ _ _ _ _ _) as [e|g].
        + destruct (is_Exception e); discriminate.
        + destruct (dist_barrier rt g) as [e|].
          * destruct (is_Exception e); discriminate.
          * intros _. eexists _, _. split; [reflexivity|].
            unfold record, with_dist; cbn [w_trace].
            now rewrite <- app_assoc.
      - destruct (w_dist w) as [g|].
        + destruct (dist_barrier rt g) as [e|].
          * destruct (is_Exception e); discriminate.
          * intros _. eexists _, _. split; reflexivity.
        + intros _. exists w, []. split; [reflexivity | now rewrite app_nil_r]. }
    destruct Hrun as (w0 & pre & Hrun & Hpre).
    rewrite Hrun, set_device_then_return_run in Hok. cbn [fst] in Hok.
    destruct (cuda_set_device rt local_rank) as [e|]; [discriminate|].
    injection Hok as <-.
    split; [reflexivity|]. split; [reflexivity|]. split; [reflexivity|].
    exists pre. apply effects_of_app.
    rewrite Hrun, set_device_then_return_run. cbn [snd].
    unfold record; cbn [w_trace]. rewrite Hpre. now rewrite <- app_assoc.
  - intros Hcuda Hle Hnone Hdev.
    rewrite init_distributed_tcp_phases by assumption.
    unfold bind at 1. rewrite tcp_try_run. cbv zeta.
    destruct (Z.ltb_spec 1 (num_machines * num_gpus_per_machine)); [lia|].
    rewrite Hnone, set_device_then_return_run, Hdev. reflexivity.
Qed.

Lemma init_distributed_tcp_returns_local_rank_witness :
  init_distributed_tcp reference_runtime 5 0 1 1 default_dist_url default_backend
    (start ∅) = (Ok 5, World ∅ None [SetDevice 5]).
Proof.
  apply (init_distributed_tcp_returns_local_rank reference_runtime 5 0 1 1
           default_dist_url default_backend (start ∅)); reflexivity || lia.
Defined.

(** ** What the caller sees when the [try] statement fails *)

(** The handler of [init_distributed_env], run after the normalisation. *)
Lemma report_env_at {A : Type} e w0 env :
  w_env w0 = normalized_env env ->
  @report_env A e w0 =
  match env !! "MASTER_PORT" with
  | Some p =>
      (Raise e,
       World (w_env w0) (w_dist w0)
         (w_trace w0 ++
          [EnvRead "MASTER_ADDR"; EnvRead "MASTER_PORT";
           LogError ("Dist URL: " ++ Spec.master_addr env ++ ":" ++ p)%string]))
  | None =>
      (Raise (KeyError "MASTER_PORT"),
       World (w_env w0) (w_dist w0)
         (w_trace w0 ++ [EnvRead "MASTER_ADDR"; EnvRead "MASTER_PORT"]))
  end.
Proof.
  intros He.
  assert (Ha : w_env w0 !! "MASTER_ADDR" = Some (Spec.master_addr env))
    by (rewrite He; apply normalized_env_master_addr).
  assert (Hp : w_env w0 !! "MASTER_PORT" = env !! "MASTER_PORT")
    by (rewrite He; now apply normalized_env_other).
  destruct (env !! "MASTER_PORT") as [p|].
  - rewrite (report_env_with_port e w0 _ p Ha Hp).
    unfold record; cbn [w_env w_dist w_trace]. now rewrite <- !app_assoc.
  - rewrite (report_env_without_port e w0 _ Ha Hp).
    unfold record; cbn [w_env w_dist w_trace]. now rewrite <- !app_assoc.
Qed.

Lemma filter_log_normalize_events env :
  List.filter is_log_error (normalize_events env) = [].
Proof. reflexivity. Qed.

(** X16.  Every failure of the [try] statement of [init_distributed_env],
    be it a malformed world size, a failed rendezvous or a failed barrier: if
    it is an [Exception] and [MASTER_PORT] is set, the caller receives it
    after exactly one log line with the resolved address and the port; if it
    is an [Exception] and [MASTER_PORT] is not set, the caller receives
    [KeyError] for [MASTER_PORT] and nothing is logged; if it is not an
    [Exception], the caller receives it and nothing is logged.  In no case is
    a device bound. *)
Theorem init_distributed_env_failure_report rt backend w e :
  cuda_is_available rt = true ->
  env_try_failure rt backend w = Some e ->
  let evs := effects_of (init_distributed_env rt backend) w in
  fst (init_distributed_env rt backend w) =
    Raise (if is_Exception e then
             match w_env w !! "MASTER_PORT" with
             | Some _ => e
             | None => KeyError "MASTER_PORT"
             end
           else e) /\
  List.filter is_log_error evs =
    (if is_Exception e then
       match w_env w !! "MASTER_PORT" with
       | Some p =>
           [LogError ("Dist URL: " ++ Spec.master_addr (w_env w) ++ ":" ++ p)%string]
       | None => []
       end
     else []) /\
  (forall d, SetDevice d ∉ evs).
Proof.
  intros Hcuda Hfail evs. subst evs.
  (* the call ends in the handler, or passes the exception on, at some world
     reached by reads of the environment and calls of the runtime only *)
  assert (Hrun : exists w0 pre,
             init_distributed_env rt backend w =
               (if is_Exception e then @report_env Z e w0 else (Raise e, w0)) /\
             w_env w0 = normalized_env (w_env w) /\
             w_trace w0 = (w_trace w ++ normalize_events (w_env w) ++ pre)%list /\
             List.filter is_log_error pre = [] /\
             (forall d, SetDevice d ∉ pre)).
  { rewrite init_distributed_env_phases by assumption.
    set (w1 := World _ _ _). unfold bind at 1.
    rewrite (join_group_run rt backend w1 _ (normalized_env_world_size (w_env w))).
    cbv zeta. subst w1. cbn [w_env w_dist].
    unfold env_try_failure in Hfail.
    assert (Hnone : forall (l : list event) d,
               Forall (fun ev => match ev with SetDevice _ => False | _ => True end) l ->
               SetDevice d ∉ l).
    { intros l d Hl Hin. rewrite Forall_forall in Hl. now apply Hl in Hin. }
    assert (Hrep : forall e0 w0,
               (let (r, w') := @report_env unit e0 w0 in
                match r with
                | Ok a => bind_device rt w'
                | Raise e1 => (Raise e1, w')
                end) = @report_env Z e0 w0).
    { intros e0 w0. unfold report_env, bind, environ_getitem.
      destruct (w_env w0 !! "MASTER_ADDR"); [|reflexivity].
      cbn [w_env record].
      destruct (w_env w0 !! "MASTER_PORT"); reflexivity. }
    destruct (int rt (Spec.world_size (w_env w))) as [n|].
    - destruct (1 <? n); [|discriminate].
      destruct (dist_init_process_group _ _ _ _ _ _ _) as [e0|g].
      + injection Hfail as ->.
        eexists _, [EnvRead "WORLD_SIZE";
                    InitProcessGroup backend "env://" None None].
        split; [destruct (is_Exception e); [apply Hrep | reflexivity]|].
        split; [reflexivity|].
        split; [unfold record; cbn [w_trace]; now rewrite <- !app_assoc|].
        split; [reflexivity|].
        intros d. apply Hnone. now repeat constructor.
      + rewrite Hfail.
        eexists _, [EnvRead "WORLD_SIZE";
                    InitProcessGroup backend "env://" None None; Barrier].
        split; [destruct (is_Exception e); [apply Hrep | reflexivity]|].
        split; [reflexivity|].
        split; [unfold record, with_dist; cbn [w_trace]; now rewrite <- !app_assoc|].
        split; [reflexivity|].
        intros d. apply Hnone. now repeat constructor.
    - injection Hfail as <-. cbn [is_Exception].
      eexists _, [EnvRead "WORLD_SIZE"].
      split; [apply Hrep|].
      split; [reflexivity|].
      split; [unfold record; cbn [w_trace]; now rewrite <- !app_assoc|].
      split; [reflexivity|].
      intros d. apply Hnone. now repeat constructor. }
  destruct Hrun as (w0 & pre & Hrun & He & Ht & Hlog & Hdev).
  rewrite (report_env_at e w0 (w_env w) He) in Hrun.
  assert (Hfilter : forall tail,
             List.filter is_log_error
               (normalize_events (w_env w) ++ pre ++ tail) =
             List.filter is_log_error tail).
  { intros tail. now rewrite !List.filter_app, filter_log_normalize_events, Hlog. }
  assert (Hdevs : forall tail d,
             SetDevice d ∉ tail ->
             SetDevice d ∉ (normalize_events (w_env w) ++ pre ++ tail)%list).
  { intros tail d Htail Hin.
    apply elem_of_app in Hin as [Hin|Hin];
      [apply normalize_events_env in Hin; discriminate|].
    apply elem_of_app in Hin as [Hin|Hin]; [now apply (Hdev d) | now apply Htail]. }
  destruct (is_Exception e).
  - destruct (w_env w !! "MASTER_PORT") as [p|].
    + rewrite Hrun. cbn [fst]. split; [reflexivity|].
      rewrite (effects_of_app _ w
                 (normalize_events (w_env w) ++ pre ++
                  [EnvRead "MASTER_ADDR"; EnvRead "MASTER_PORT";
                   LogError ("Dist URL: " ++ Spec.master_addr (w_env w) ++ ":" ++ p)%string])).
      2:{ rewrite Hrun. cbn [snd w_trace]. rewrite Ht. now rewrite <- !app_assoc. }
      split; [now rewrite Hfilter|].
      intros d. apply Hdevs. intros Hin.
      repeat (apply elem_of_cons in Hin as [Heq|Hin]; [discriminate|]).
      now apply elem_of_nil in Hin.
    + rewrite Hrun. cbn [fst]. split; [reflexivity|].
      rewrite (effects_of_app _ w
                 (normalize_events (w_env w) ++ pre ++
                  [EnvRead "MASTER_ADDR"; EnvRead "MASTER_PORT"])).
      2:{ rewrite Hrun. cbn [snd w_trace]. rewrite Ht. now rewrite <- !app_assoc. }
      split; [now rewrite Hfilter|].
      intros d. apply Hdevs. intros Hin.
      repeat (apply elem_of_cons in Hin as [Heq|Hin]; [discriminate|]).
      now apply elem_of_nil in Hin.
  - rewrite Hrun. cbn [fst]. split; [reflexivity|].
    rewrite (effects_of_app _ w (normalize_events (w_env w) ++ pre ++ [])).
    2:{ rewrite Hrun. cbn [snd]. rewrite Ht. now rewrite app_nil_r. }
    split; [now rewrite Hfilter|].
    intros d. apply Hdevs. intros Hin. now apply elem_of_nil in Hin.
Qed.

Lemma init_distributed_env_failure_report_witness :
  cuda_is_available (barrier_failing_runtime (RuntimeExn 9)) = true /\
  env_try_failure (barrier_failing_runtime (RuntimeExn 9)) "nccl"
    (start launcher_env) = Some (RuntimeExn 9) /\
  fst (init_distributed_env (barrier_failing_runtime (RuntimeExn 9)) "nccl"
         (start launcher_env)) = Raise (RuntimeExn 9) /\
  List.filter is_log_error
    (effects_of (init_distributed_env (barrier_failing_runtime (RuntimeExn 9)) "nccl")
       (start launcher_env)) = [LogError "Dist URL: 10.0.0.1:29500"].
Proof.
  split; [reflexivity|]. split; [reflexivity|].
  destruct (init_distributed_env_failure_report
              (barrier_failing_runtime (RuntimeExn 9)) "nccl" (start launcher_env)
              (RuntimeExn 9) eq_refl eq_refl) as (Hout & Hlog & _).
  split; [exact Hout | exact Hlog].
Defined.

(** X17.  Every failure of the [try] statement of [init_distributed_tcp], a
    failed rendezvous or a failed barrier, reaches the caller as the
    exception that was raised: after exactly one log line with the URL when
    it is an [Exception], with no log line otherwise.  No device is bound and
    the environment is not consulted. *)
Theorem init_distributed_tcp_failure_report
    rt local_rank machine_rank num_gpus_per_machine num_machines dist_url backend
    w e :
  cuda_is_available rt = true ->
  tcp_try_failure rt (num_machines * num_gpus_per_machine)
    (machine_rank * num_gpus_per_machine + local_rank) dist_url backend w = Some e ->
  let call :=
    init_distributed_tcp rt local_rank machine_rank num_gpus_per_machine
      num_machines dist_url backend in
  fst (call w) = Raise e /\
  List.filter is_log_error (effects_of call w) =
    (if is_Exception e then [LogError ("Dist URL: " ++ dist_url)%string] else []) /\
  (forall d, SetDevice d ∉ effects_of call w).
Proof.
  intros Hcuda Hfail call. subst call.
  set (ws := num_machines * num_gpus_per_machine) in *.
  set (wr := machine_rank * num_gpus_per_machine + local_rank) in *.
  assert (Hrun : exists pre d,
             init_distributed_tcp rt local_rank machine_rank num_gpus_per_machine
               num_machines dist_url backend w =
             (Raise e,
              World (w_env w) d
                (w_trace w ++ pre ++
                 (if is_Exception e
                  then [LogError ("Dist URL: " ++ dist_url)%string] else []))) /\
             List.filter is_log_error pre = [] /\
             Forall (fun ev => match ev with SetDevice _ => False | _ => True end) pre).
  { rewrite init_distributed_tcp_phases by assumption. fold ws wr.
    unfold bind at 1. rewrite tcp_try_run. cbv zeta.
    unfold tcp_try_failure in Hfail.
    destruct (1 <? ws).
    - destruct (dist_init_process_group _ _ _ _ _ _ _) as [e0|g].
      + injection Hfail as ->.
        exists [InitProcessGroup backend dist_url (Some ws) (Some wr)], (w_dist w).
        split; [|split; [reflexivity | now repeat constructor]].
        destruct (is_Exception e); unfold record; cbn [w_env w_dist w_trace].
        * now rewrite <- !app_assoc.
        * now rewrite app_nil_r.
      + rewrite Hfail.
        exists [InitProcessGroup backend dist_url (Some ws) (Some wr); Barrier],
               (Some g).
        split; [|split; [reflexivity | now repeat constructor]].
        destruct (is_Exception e); unfold record, with_dist;
          cbn [w_env w_dist w_trace].
        * now rewrite <- !app_assoc.
        * now rewrite <- !app_assoc, app_nil_r.
    - destruct (w_dist w) as [g|] eqn:Hd; [|discriminate].
      rewrite Hfail. exists [Barrier], (Some g).
      split; [|split; [reflexivity | now repeat constructor]].
      destruct (is_Exception e); unfold record; cbn [w_env w_dist w_trace].
      + now rewrite <- !app_assoc, Hd.
      + now rewrite app_nil_r, Hd. }
  destruct Hrun as (pre & d & Hrun & Hlog & Hdev).
  rewrite (effects_of_app _ w _ (f_equal (fun r => w_trace (snd r)) Hrun)).
  rewrite Hrun. cbn [fst]. split; [reflexivity|]. split.
  - rewrite List.filter_app, Hlog. now destruct (is_Exception e).
  - intros dev Hin. rewrite Forall_forall in Hdev.
    apply elem_of_app in Hin as [Hin|Hin]; [now apply Hdev in Hin|].
    destruct (is_Exception e); [|now apply elem_of_nil in Hin].
    apply list_elem_of_singleton in Hin. discriminate.
Qed.

Lemma init_distributed_tcp_failure_report_witness :
  cuda_is_available (barrier_failing_runtime (RuntimeExn 9)) = true /\
  tcp_try_failure (barrier_failing_runtime (RuntimeExn 9)) (1 * 1) (0 * 1 + 0)
    default_dist_url default_backend (joined_world ∅) = Some (RuntimeExn 9) /\
  init_distributed_tcp (barrier_failing_runtime (RuntimeExn 9)) 0 0 1 1
    default_dist_url default_backend (joined_world ∅) =
  (Raise (RuntimeExn 9),
   World ∅ (Some (ProcessGroup 1 2))
     [Barrier; LogError "Dist URL: tcp://127.0.0.1:23456"]).
Proof.
  split; [reflexivity|]. split; [reflexivity|].
  destruct (init_distributed_tcp_failure_report
              (barrier_failing_runtime (RuntimeExn 9)) 0 0 1 1 default_dist_url
              default_backend (joined_world ∅) (RuntimeExn 9) eq_refl eq_refl)
    as (Hout & _ & _).
  destruct (init_distributed_tcp (barrier_failing_runtime (RuntimeExn 9)) 0 0 1 1
              default_dist_url default_backend (joined_world ∅)) as [r w'] eqn:Hrun.
  cbn [fst] in Hout. subst r.
  vm_compute in Hrun. injection Hrun as <-. reflexivity.
Defined.

(** ** When [init_distributed_env] returns *)

(** A failed [try] statement ends the call with an exception. *)
Lemma failed_try_ends_in_exception rt backend w e :
  cuda_is_available rt = true ->
  env_try_failure rt backend w = Some e ->
  exists e', fst (init_distributed_env rt backend w) = Raise e'.
Proof.
  intros Hcuda Hfail.
  rewrite init_distributed_env_phases by assumption.
  set (w1 := World _ _ _). unfold bind at 1.
  rewrite (join_group_run rt backend w1 _ (normalized_env_world_size (w_env w))).
  cbv zeta. subst w1. cbn [w_env w_dist].
  unfold env_try_failure in Hfail.
  assert (Hrep : forall e0 w0,
             exists e',
               fst (let (r, w') := @report_env unit e0 w0 in
                    match r with
                    | Ok a => bind_device rt w'
                    | Raise e1 => (Raise e1, w')
                    end) = Raise e').
  { intros e0 w0.
    destruct (report_env_raises (A := unit) e0 w0) as (e' & w' & ->). eauto. }
  destruct (int rt (Spec.world_size (w_env w))) as [n|]; [|apply Hrep].
  destruct (1 <? n); [|discriminate].
  destruct (dist_init_process_group _ _ _ _ _ _ _) as [e0|g].
  - destruct (is_Exception e0); [apply Hrep | eauto].
  - rewrite Hfail. destruct (is_Exception e); [apply Hrep | eauto].
Qed.

(** X18.  [init_distributed_env] returns only after it has bound a device:
    when it returns [lr], a device is present, [WORLD_SIZE] resolved to an
    integer, either that integer is at most one or the group was formed and
    the barrier passed, the resolved local rank spells [lr], binding device
    [lr] succeeded and was the last effect of the call. *)
Theorem init_distributed_env_returns_only_if rt backend w lr :
  fst (init_distributed_env rt backend w) = Ok lr ->
  cuda_is_available rt = true /\
  (exists n,
     int rt (Spec.world_size (w_env w)) = Some n /\
     (n <= 1 \/
      exists g,
        dist_init_process_group rt backend "env://" None None
          (normalized_env (w_env w)) (w_dist w) = inr g /\
        dist_barrier rt g = None)) /\
  int rt (Spec.local_rank (w_env w)) = Some lr /\
  cuda_set_device rt lr = None /\
  exists evs,
    effects_of (init_distributed_env rt backend) w = (evs ++ [SetDevice lr])%list.
Proof.
  intros Hok.
  destruct (cuda_is_available rt) eqn:Hcuda.
  2:{ rewrite init_distributed_env_no_device in Hok by assumption. discriminate. }
  split; [reflexivity|].
  assert (Hlr := init_distributed_env_returned rt backend w lr Hok).
  (* the [try] statement did not fail *)
  destruct (env_try_failure rt backend w) as [e|] eqn:Hfail.
  { destruct (failed_try_ends_in_exception rt backend w e Hcuda Hfail)
      as (e' & He'). rewrite He' in Hok. discriminate. }
  unfold env_try_failure in Hfail.
  destruct (int rt (Spec.world_size (w_env w))) as [n|] eqn:Hn; [|discriminate].
  assert (Hdev : forall w0 pre,
             init_distributed_env rt backend w = bind_device rt w0 ->
             w_env w0 = normalized_env (w_env w) ->
             w_trace w0 = (w_trace w ++ pre)%list ->
             cuda_set_device rt lr = None /\
             exists evs,
               effects_of (init_distributed_env rt backend) w =
                 (evs ++ [SetDevice lr])%list).
  { intros w0 pre Hrun He Ht.
    rewrite Hrun, bind_device_run in Hok. cbn zeta in Hok.
    rewrite He, local_rank_normalized, Hlr in Hok. cbn [fst] in Hok.
    destruct (cuda_set_device rt lr) as [e|] eqn:Hset; [discriminate|].
    split; [reflexivity|].
    exists (pre ++ [EnvRead "SLURM_LOCALID"; EnvRead "LOCAL_RANK"])%list.
    apply effects_of_app.
    rewrite Hrun, bind_device_run. cbn zeta.
    rewrite He, local_rank_normalized, Hlr. cbn [snd].
    unfold record; cbn [w_trace]. rewrite Ht. now rewrite <- !app_assoc. }
  destruct (Z.ltb_spec 1 n).
  - destruct (dist_init_process_group rt backend "env://" None None
                (normalized_env (w_env w)) (w_dist w)) as [e|g] eqn:Hg;
      [discriminate|].
    destruct (Hdev _ _ (init_distributed_env_group rt backend w n g
                          Hcuda Hn H Hg Hfail) eq_refl eq_refl) as [Hset Hevs].
    split; [exists n; split; [reflexivity|]; right; now exists g|].
    split; [assumption|]. split; assumption.
  - destruct (Hdev _ _ (init_distributed_env_single rt backend w n Hcuda Hn H)
                eq_refl eq_refl) as [Hset Hevs].
    split; [exists n; split; [reflexivity|]; now left|].
    split; [assumption|]. split; assumption.
Qed.

Lemma init_distributed_env_returns_only_if_witness :
  fst (init_distributed_env reference_runtime "nccl" (start slurm_env)) = Ok 1 /\
  int reference_runtime (Spec.local_rank slurm_env) = Some 1 /\
  cuda_set_device reference_runtime 1 = None /\
  exists evs,
    effects_of (init_distributed_env reference_runtime "nccl") (start slurm_env) =
      (evs ++ [SetDevice 1])%list.
Proof.
  assert (Hok : fst (init_distributed_env reference_runtime "nccl"
                       (start slurm_env)) = Ok 1) by (vm_compute; reflexivity).
  destruct (init_distributed_env_returns_only_if reference_runtime "nccl"
              (start slurm_env) 1 Hok) as (_ & _ & Hlr & Hset & Hevs).
  split; [exact Hok|]. split; [exact Hlr|]. split; [exact Hset | exact Hevs].
Defined.

(** ** [int] on plain and on other strings *)

Lemma int_plain rt s : is_plain s = true -> int rt s = int_literal s.
Proof. unfold int. now intros ->. Qed.

Lemma int_not_plain rt s : is_plain s = false -> int rt s = int_beyond rt s.
Proof. unfold int. now intros ->. Qed.

(** A local rank written with a full-width digit is what the interpreter
    makes of it: here device 1 is bound and 1 returned. *)
Lemma fullwidth_local_rank_is_read :
  is_plain fullwidth_one = false /\
  init_distributed_env fullwidth_runtime "nccl" (start fullwidth_env) =
  (Ok 1,
   World (normalized_env fullwidth_env) None
     (normalize_events fullwidth_env ++
      [EnvRead "WORLD_SIZE"; EnvRead "SLURM_LOCALID"; EnvRead "LOCAL_RANK";
       SetDevice 1])).
Proof.
  split; [reflexivity|].
  rewrite (init_distributed_env_returns_single fullwidth_runtime "nccl"
             (start fullwidth_env) 1 1); reflexivity || (vm_compute; congruence).
Qed.

(** ** The mean across the processes of a group *)

Lemma three_processes_group : group_of_processes three_processes.
Proof.
  intros i w v H.
  destruct i as [|[|[|i]]]; cbn in H; [| | |discriminate];
    injection H as <- <-; eexists; repeat split.
Qed.

Lemma three_processes_contract :
  all_reduce_sum_contract qtensor_sum three_processes_all_reduce three_processes.
Proof. intros i w v g _ _. reflexivity. Qed.

(** C8.  When a process group of N processes exists and process [i] holds
    the tensor [v_i], [average_across_processes] has the collective sum the
    tensors across all processes and divides the sum by the world size: under
    the contract of the sum all-reduce, the call of every process ends with
    the same outcome, the division of the sum of all the [v_i] by N, so that
    when this division yields a tensor every process holds that one tensor.
    The model passes tensors by value where the source updates the argument in
    place and returns it. *)
Theorem average_across_processes_mean
    (Tensor : Type) (tensor_sum : list Tensor -> Tensor)
    dist_all_reduce_sum tensor_idiv
    (participants : list (world * Tensor)) i w v :
  group_of_processes participants ->
  all_reduce_sum_contract tensor_sum dist_all_reduce_sum participants ->
  participants !! i = Some (w, v) ->
  average_across_processes Tensor dist_all_reduce_sum tensor_idiv v w =
  (match tensor_idiv (tensor_sum (participants.*2))
           (Z.of_nat (length participants)) with
   | inl e => Raise e
   | inr mean => Ok mean
   end,
   record AllReduce w).
Proof.
  intros Hgroup Hsum Hi.
  destruct (Hgroup i w v Hi) as (g & Hd & _ & Hsize).
  pose proof (Hsum i w v g Hi Hd) as Hall.
  unfold average_across_processes, get_world_size, bind, all_reduce, idiv.
  rewrite Hd, Hall. cbn [w_dist record]. rewrite Hd, Hsize.
  destruct (tensor_idiv _ _); reflexivity.
Qed.

Lemma average_across_processes_mean_witness :
  group_of_processes three_processes /\
  all_reduce_sum_contract qtensor_sum three_processes_all_reduce three_processes /\
  forall i w v,
    three_processes !! i = Some (w, v) ->
    fst (average_across_processes (list QArith_base.Q) three_processes_all_reduce
           qtensor_div v w) =
    Ok [QArith_base.inject_Z 3; QArith_base.inject_Z 20].
Proof.
  split; [apply three_processes_group|].
  split; [apply three_processes_contract|].
  intros i w v Hi.
  rewrite (average_across_processes_mean (list QArith_base.Q) qtensor_sum
             three_processes_all_reduce qtensor_div three_processes i w v
             three_processes_group three_processes_contract Hi).
  reflexivity.
Defined.
